(** * Performance-management backend: scoring engine and KPI handlers

    A shallow embedding of [src/main.py] (FastAPI handlers over two MongoDB
    collections) and of the request schema of [src/schemas.py].

    Numbers.  The handlers compute with Python [float]s.  They are embedded
    as exact rationals ([Q]): every arithmetic operator of the source is the
    rational operator of the same name, comparisons are the decidable
    rational comparisons, and [/] raises [ZeroDivisionError] on a zero
    divisor as it does in Python.  Rounding, infinities and NaN are outside
    this model.

    Storage.  [db['kpi']] and [db['kpi_data']] are lists of documents in
    insertion order; [find_one] returns the first match and [update_one]
    rewrites the first match (or appends when [upsert=True] finds none).
    The identifier type of the storage driver ([bson.ObjectId]) is an
    interface: the source only parses it from a string, prints it and lets
    the driver compare it. *)

From Stdlib Require Import QArith Qminmax Qabs Lqa Lia ZArith List String Ascii Bool.
From Stdlib Require Import DecimalString Permutation Qround.
Import ListNotations.

Local Open Scope string_scope.
Local Open Scope Q_scope.

(** ** Exceptions and results *)

Inductive exn : Type :=
| HTTPException (status_code : Z) (detail : string)
| ZeroDivisionError.

Inductive result (A : Type) : Type :=
| Ok (a : A)
| Err (e : exn).

Arguments Ok {A} a.
Arguments Err {A} e.

Definition rbind {A B : Type} (r : result A) (k : A -> result B) : result B :=
  match r with
  | Ok a => k a
  | Err e => Err e
  end.

Declare Scope result_scope.
Delimit Scope result_scope with result.
Notation "x <- r ;; k" := (rbind r (fun x => k))
  (at level 61, r at next level, right associativity) : result_scope.

(** ** Python primitives on numbers *)

Module Py.

(** [a < b], [a <= b], [a >= b], [a == b] on floats. *)
Definition lt (a b : Q) : bool := negb (Qle_bool b a).
Definition le (a b : Q) : bool := Qle_bool a b.
Definition ge (a b : Q) : bool := Qle_bool b a.
Definition eq (a b : Q) : bool := Qeq_bool a b.

(** [a / b]: true division, raising on a zero divisor. *)
Definition div (a b : Q) : result Q :=
  if eq b 0 then Err ZeroDivisionError else Ok (a / b).

(** [min(a, b)] and [max(a, b)]: the builtins keep the first argument
    unless the second is strictly smaller (resp. strictly larger). *)
Definition min (a b : Q) : Q := if lt b a then b else a.
Definition max (a b : Q) : Q := if lt a b then b else a.

(** [sum(values)]: left-to-right accumulation from [0]. *)
Definition sum (values : list Q) : Q := fold_left Qplus values 0.

(** [len(values)] used as a number. *)
Definition len (values : list Q) : Q :=
  inject_Z (Z.of_nat (List.length values)).

(** A value compared against string literals: a [str], or [None]. *)
Definition tag := option string.

(** [t == 'literal'] *)
Definition tag_is (t : tag) (literal : string) : bool :=
  match t with
  | Some s => String.eqb s literal
  | None => false
  end.

End Py.

(** ** Scoring engine (main.py, lines 29-54) *)

Local Open Scope result_scope.

(** [compute_actual(values, aggregation)] *)
Definition compute_actual (values : list Q) (aggregation : Py.tag) : result Q :=
  match values with
  | [] => Ok 0
  | _ :: _ =>
      if Py.tag_is aggregation "Sum" then Ok (Py.sum values)
      else (* Average *) Py.div (Py.sum values) (Py.len values)
  end.

(** [clamp_percentage(p)] *)
Definition clamp_percentage (p : Q) : Q := Py.max 0 (Py.min 100 p).

(** The two conditions of the Control branch, in source order.
    [control_first] is the condition of line 51, [control_second] that of
    line 53 (a chained comparison [a <= b <= c] is [a <= b and b <= c]). *)
Definition control_first (actual start target : Q) : bool :=
  (Py.ge actual start && Py.le actual target)
  || (Py.ge target start && (Py.le start actual && Py.le actual target)).

Definition control_second (actual start target : Q) : bool :=
  (Py.le start actual && Py.le actual target)
  || (Py.le target actual && Py.le actual start).

(** [compute_percentage(category, actual, start, target)] *)
Definition compute_percentage (category : Py.tag) (actual start target : Q)
  : result Q :=
  if (Py.tag_is category "Increase" || Py.tag_is category "Decrease")
     && Py.eq start target
  then Ok 0
  else
    pct <- (if Py.tag_is category "Increase" then
              q <- Py.div (actual - start) (target - start) ;; Ok (q * 100)
            else if Py.tag_is category "Decrease" then
              q <- Py.div (start - actual) (start - target) ;; Ok (q * 100)
            else (* Control *)
              let pct := if control_first actual start target
                         then 100 else 0 in
              let pct := if control_second actual start target
                         then 100 else 0 in
              Ok pct) ;;
    Ok (clamp_percentage pct).

(** ** Formatting: [f"{score:.2f}"]

    The value is rounded to the nearest multiple of 1/100, ties to even, and
    printed with a sign, the integer digits, a point and two digits. *)

Definition round_half_even (q : Q) : Z :=
  let n := (Qnum q / Zpos (Qden q))%Z in
  let r := (Qnum q mod Zpos (Qden q))%Z in
  match (2 * r ?= Zpos (Qden q))%Z with
  | Lt => n
  | Gt => (n + 1)%Z
  | Eq => if Z.even n then n else (n + 1)%Z
  end.

Definition digit (d : Z) : string :=
  String (ascii_of_nat (48 + Z.to_nat d)) EmptyString.

Definition decimal (n : Z) : string :=
  NilZero.string_of_uint (N.to_uint (Z.to_N n)).

Definition format_2f (q : Q) : string :=
  let n := round_half_even (Qabs q * 100) in
  (if Py.lt q 0 then "-" else "")
  ++ decimal (n / 100) ++ "." ++ digit ((n mod 100) / 10) ++ digit (n mod 10).

(** ** Documents and collections *)

(** [bson.ObjectId] as the handlers use it: [ObjectId(s)] (which raises on a
    string that is not an identifier), [str(o)], and equality in queries. *)
Class Bson : Type := {
  ObjectId : Type;
  ObjectId_parse : string -> option ObjectId;
  ObjectId_str : ObjectId -> string;
  ObjectId_eqb : ObjectId -> ObjectId -> bool;
  ObjectId_eqb_eq : forall a b, ObjectId_eqb a b = true <-> a = b
}.

Section Store.

Context {B : Bson}.

(** A document of [db['kpi']]: the dump of a validated [Kpi] plus the
    identifier and the two timestamps.  Fields the handlers read with a
    fallback for [None] are optional. *)
Record KpiDoc : Type := {
  k_id : ObjectId;
  k_name : string;
  k_unit : string;
  k_category : Py.tag;
  k_weightage : option Q;
  k_start_value : Q;
  k_target_value : Q;
  k_aggregation : Py.tag;
  k_frequency : string;
  k_created_at : Z;
  k_updated_at : Z
}.

(** A document of [db['kpi_data']]: the [record] of [save_kpi_data]. *)
Record Snapshot : Type := {
  s_kpi_id : string;
  s_values : list Q;
  s_actual : Q;
  s_percentage : option Q;
  s_updated_at : Z
}.

(** The request body of [POST /api/kpis/{id}/data] (schemas.KpiData). *)
Record KpiData : Type := {
  p_kpi_id : string;
  p_values : list Q;
  p_actual : option Q;
  p_percentage : option Q
}.

Record Db : Type := {
  kpi : list KpiDoc;
  kpi_data : list Snapshot
}.

(** [db['kpi'].find_one({"_id": o})] *)
Definition find_kpi (o : ObjectId) (c : list KpiDoc) : option KpiDoc :=
  find (fun d => ObjectId_eqb (k_id d) o) c.

(** [db['kpi_data'].find_one({"kpi_id": kid})] *)
Definition find_data (kid : string) (c : list Snapshot) : option Snapshot :=
  find (fun d => String.eqb (s_kpi_id d) kid) c.

(** [update_one({"kpi_id": kid}, {"$set": record})]: the first matching
    document gets every field of [record]; [None] when nothing matches. *)
Fixpoint update_first (kid : string) (record : Snapshot)
  (c : list Snapshot) : option (list Snapshot) :=
  match c with
  | [] => None
  | d :: c' =>
      if String.eqb (s_kpi_id d) kid then Some (record :: c')
      else option_map (cons d) (update_first kid record c')
  end.

(** [update_one(..., upsert=True)] *)
Definition upsert (kid : string) (record : Snapshot) (c : list Snapshot)
  : list Snapshot :=
  match update_first kid record c with
  | Some c' => c'
  | None => c ++ [record]
  end.

End Store.

(** ** Handlers: state-and-exception passing over the database *)

Section Handlers.

Context {B : Bson}.

(** A handler runs against the database and either returns a value or
    raises; the database it leaves behind is returned in both cases. *)
Definition handler (A : Type) : Type := Db -> result A * Db.

Definition ret {A : Type} (a : A) : handler A := fun db => (Ok a, db).

Definition raise {A : Type} (e : exn) : handler A := fun db => (Err e, db).

Definition lift {A : Type} (r : result A) : handler A := fun db => (r, db).

Definition bind {A C : Type} (m : handler A) (k : A -> handler C)
  : handler C :=
  fun db =>
    match m db with
    | (Ok a, db') => k a db'
    | (Err e, db') => (Err e, db')
    end.

(** [list(db['kpi'].find())] *)
Definition kpi_find : handler (list KpiDoc) := fun db => (Ok (kpi db), db).

Definition kpi_find_one (o : ObjectId) : handler (option KpiDoc) :=
  fun db => (Ok (find_kpi o (kpi db)), db).

Definition kpi_data_find_one (kid : string) : handler (option Snapshot) :=
  fun db => (Ok (find_data kid (kpi_data db)), db).

Definition kpi_data_update_one (kid : string) (record : Snapshot)
  : handler unit :=
  fun db =>
    (Ok tt, {| kpi := kpi db; kpi_data := upsert kid record (kpi_data db) |}).

(** [for x in l: acc = body(x, acc)] *)
Fixpoint for_each {A S : Type} (l : list A) (body : A -> S -> handler S)
  (acc : S) : handler S :=
  match l with
  | [] => ret acc
  | x :: l' => bind (body x acc) (for_each l' body)
  end.

End Handlers.

Declare Scope handler_scope.
Delimit Scope handler_scope with handler.
Notation "x <- m ;; k" := (bind m (fun x => k))
  (at level 61, m at next level, right associativity) : handler_scope.

Section Api.

Context {B : Bson}.

(** [oid(id_str)] (main.py, lines 22-26) *)
Definition oid (id_str : string) : result ObjectId :=
  match ObjectId_parse id_str with
  | Some o => Ok o
  | None => Err (HTTPException 400 "Invalid id format")
  end.

(** The body returned by [GET /api/kpis/{kpi_id}]. *)
Record KpiView : Type := {
  v_id : string;
  v_name : string;
  v_unit : string;
  v_category : Py.tag;
  v_weightage : option Q;
  v_start_value : Q;
  v_target_value : Q;
  v_aggregation : Py.tag;
  v_frequency : string;
  v_data : option Snapshot
}.

(** [get_kpi(kpi_id)] (main.py, lines 125-135) *)
Definition get_kpi (kpi_id : string) : handler KpiView :=
  (o <- lift (oid kpi_id) ;;
   doc <- kpi_find_one o ;;
   match doc with
   | None => raise (HTTPException 404 "KPI not found")
   | Some doc =>
       data <- kpi_data_find_one kpi_id ;;
       ret {| v_id := kpi_id;
              v_name := k_name doc;
              v_unit := k_unit doc;
              v_category := k_category doc;
              v_weightage := k_weightage doc;
              v_start_value := k_start_value doc;
              v_target_value := k_target_value doc;
              v_aggregation := k_aggregation doc;
              v_frequency := k_frequency doc;
              v_data := data |}
   end)%handler.

(** [save_kpi_data(kpi_id, payload)] (main.py, lines 146-164); [now] is
    the clock reading of [datetime.now(timezone.utc)]. *)
Definition save_kpi_data (now : Z) (kpi_id : string) (payload : KpiData)
  : handler Snapshot :=
  (o <- lift (oid kpi_id) ;;
   doc <- kpi_find_one o ;;
   match doc with
   | None => raise (HTTPException 404 "KPI not found")
   | Some doc =>
       let values := p_values payload in
       actual <- lift (compute_actual values (k_aggregation doc)) ;;
       percentage <- lift (compute_percentage (k_category doc) actual
                             (k_start_value doc) (k_target_value doc)) ;;
       let record := {| s_kpi_id := kpi_id;
                        s_values := values;
                        s_actual := actual;
                        s_percentage := Some percentage;
                        s_updated_at := now |} in
       _ <- kpi_data_update_one kpi_id record ;;
       ret record
   end)%handler.

(** [float(x or 0)] for [x = k.get('weightage', 0)] *)
Definition float_or_0 (x : option Q) : Q :=
  match x with
  | Some q => if Py.eq q 0 then 0 else q
  | None => 0
  end.

(** One iteration of the loop of [weighted_score] on KPI [k], with the
    accumulators [(total_weight, weighted_sum)]. *)
Definition weighted_score_step (k : KpiDoc) (acc : Q * Q)
  : handler (Q * Q) :=
  (let '(total_weight, weighted_sum) := acc in
   let kid := ObjectId_str (k_id k) in
   data <- kpi_data_find_one kid ;;
   match data with
   | None => ret acc
   | Some data =>
       match s_percentage data with
       | None => ret acc
       | Some percentage =>
           let w := float_or_0 (k_weightage k) in
           if Py.le w 0 then ret acc
           else ret (total_weight + w, weighted_sum + percentage * w)
       end
   end)%handler.

(** The body returned by [GET /api/weighted-score]. *)
Record Score : Type := {
  r_weighted_score : option Q;
  r_display : string
}.

(** [weighted_score()] (main.py, lines 167-186) *)
Definition weighted_score : handler Score :=
  (kpis <- kpi_find ;;
   acc <- for_each kpis weighted_score_step (0, 0) ;;
   let '(total_weight, weighted_sum) := acc in
   if Py.le total_weight 0 then
     ret {| r_weighted_score := None; r_display := "N/A" |}
   else
     score <- lift (Py.div weighted_sum total_weight) ;;
     ret {| r_weighted_score := Some score;
            r_display := format_2f score ++ "%" |})%handler.

End Api.

(** ** Specification-side notions *)

(** The arithmetic sum and the arithmetic mean of a list of values. *)
Fixpoint Qsum (l : list Q) : Q :=
  match l with
  | [] => 0
  | x :: l' => x + Qsum l'
  end.

Definition mean (l : list Q) : Q :=
  Qsum l / inject_Z (Z.of_nat (List.length l)).

(** [actual] lies in the closed interval bounded by [start] and [target],
    whichever of the two is the larger. *)
Definition in_band (actual start target : Q) : Prop :=
  Qmin start target <= actual /\ actual <= Qmax start target.

(** A percentage within bounds. *)
Definition in_0_100 (p : Q) : Prop := 0 <= p /\ p <= 100.

Section Qualifying.

Context {B : Bson}.

(** The snapshot of a KPI: the document of [kpi_data] found under the
    printed identifier of the KPI. *)
Definition snapshot_of (data : list Snapshot) (k : KpiDoc) : option Snapshot :=
  find_data (ObjectId_str (k_id k)) data.

(** The percentage and the weight a KPI contributes to the score: it has a
    snapshot, the snapshot has a percentage, and its weightage is
    positive. *)
Definition contribution (data : list Snapshot) (k : KpiDoc) : option (Q * Q) :=
  match snapshot_of data k with
  | None => None
  | Some d =>
      match s_percentage d, k_weightage k with
      | Some p, Some w => if Qlt_le_dec 0 w then Some (p, w) else None
      | _, _ => None
      end
  end.

Definition qualifies (data : list Snapshot) (k : KpiDoc) : bool :=
  match contribution data k with
  | Some _ => true
  | None => false
  end.

(** The contributions of the qualifying KPIs, in collection order. *)
Fixpoint contributions (data : list Snapshot) (kpis : list KpiDoc)
  : list (Q * Q) :=
  match kpis with
  | [] => []
  | k :: kpis' =>
      match contribution data k with
      | Some pw => pw :: contributions data kpis'
      | None => contributions data kpis'
      end
  end.

(** A KPI is left out of the score when it has no snapshot, or its snapshot
    has no percentage, or its weightage is absent or not positive. *)
Definition excluded (data : list Snapshot) (k : KpiDoc) : Prop :=
  snapshot_of data k = None
  \/ (exists d, snapshot_of data k = Some d /\ s_percentage d = None)
  \/ k_weightage k = None
  \/ (exists w, k_weightage k = Some w /\ w <= 0).

(** Adding one contribution to the pair [(total_weight, weighted_sum)]. *)
Definition accumulate (acc : Q * Q) (pw : Q * Q) : Q * Q :=
  (fst acc + snd pw, snd acc + fst pw * snd pw).

(** Sum of [percentage * weightage] and sum of [weightage] over them. *)
Definition sum_weighted (c : list (Q * Q)) : Q :=
  Qsum (map (fun pw => fst pw * snd pw) c).

Definition sum_weights (c : list (Q * Q)) : Q := Qsum (map snd c).

(** A KPI together with a snapshot, as [get_kpi] answers it for the
    requested identifier [kpi_id]. *)
Definition kpi_view (kpi_id : string) (doc : KpiDoc) (data : option Snapshot)
  : KpiView :=
  {| v_id := kpi_id;
     v_name := k_name doc;
     v_unit := k_unit doc;
     v_category := k_category doc;
     v_weightage := k_weightage doc;
     v_start_value := k_start_value doc;
     v_target_value := k_target_value doc;
     v_aggregation := k_aggregation doc;
     v_frequency := k_frequency doc;
     v_data := data |}.

(** The record [save_kpi_data] builds. *)
Definition snapshot_record (now : Z) (kpi_id : string) (values : list Q)
  (actual percentage : Q) : Snapshot :=
  {| s_kpi_id := kpi_id;
     s_values := values;
     s_actual := actual;
     s_percentage := Some percentage;
     s_updated_at := now |}.

(** The answer of [weighted_score] when no score is available. *)
Definition not_available : Score :=
  {| r_weighted_score := None; r_display := "N/A" |}.

(** At most one snapshot per key. *)
Definition unique_keys (data : list Snapshot) : Prop :=
  NoDup (map s_kpi_id data).


End Qualifying.

(** ** A small instance of the identifier interface, for worked examples:
    an identifier is written with 24 hexadecimal digits, in either case, and
    printed in lower case. *)

Definition is_hex (c : ascii) : bool :=
  let n := nat_of_ascii c in
  ((48 <=? n) && (n <=? 57) || (65 <=? n) && (n <=? 70)
   || (97 <=? n) && (n <=? 102))%nat.

Definition hex24 (s : string) : bool :=
  (String.length s =? 24)%nat && forallb is_hex (list_ascii_of_string s).

Definition lower (c : ascii) : ascii :=
  let n := nat_of_ascii c in
  if ((65 <=? n) && (n <=? 70))%nat then ascii_of_nat (n + 32) else c.

Definition lowercase (s : string) : string :=
  string_of_list_ascii (map lower (list_ascii_of_string s)).

#[local] Program Instance HexId : Bson := {
  ObjectId := string;
  ObjectId_parse := fun s => if hex24 s then Some (lowercase s) else None;
  ObjectId_str := fun o => o;
  ObjectId_eqb := String.eqb
}.
Next Obligation. apply String.eqb_eq. Qed.

Definition id_a : string := "65a1b2c3d4e5f60718293a4b".
Definition id_b : string := "65a1b2c3d4e5f60718293a4c".
Definition id_c : string := "65a1b2c3d4e5f60718293a4d".

Definition example_kpi (i : string) (category : string) (w start target : Q)
  (aggregation : string) : KpiDoc :=
  {| k_id := i; k_name := "kpi"; k_unit := "%";
     k_category := Some category; k_weightage := Some w;
     k_start_value := start; k_target_value := target;
     k_aggregation := Some aggregation; k_frequency := "Monthly";
     k_created_at := 0%Z; k_updated_at := 0%Z |}.

Definition example_snapshot (i : string) (p : Q) : Snapshot :=
  {| s_kpi_id := i; s_values := [p]; s_actual := p;
     s_percentage := Some p; s_updated_at := 0%Z |}.

(** Weights 20 and 30 with percentages 50 and 100. *)
Definition db_two : Db :=
  {| kpi := [example_kpi id_a "Increase" 20 0 100 "Sum";
             example_kpi id_b "Increase" 30 0 100 "Sum"];
     kpi_data := [example_snapshot id_a 50; example_snapshot id_b 100] |}.

(** One KPI without a snapshot. *)
Definition db_bare : Db :=
  {| kpi := [example_kpi id_a "Increase" 20 0 100 "Average"];
     kpi_data := [] |}.

Definition db_empty : Db := {| kpi := []; kpi_data := [] |}.

Definition example_payload : KpiData :=
  {| p_kpi_id := id_a; p_values := [20; 40; 60];
     p_actual := None; p_percentage := None |}.

(** ** The request schema and the remaining handlers
    (schemas.py, lines 6-23; main.py, lines 89-143) *)

(** The values the three [Literal] types of the schema admit. *)
Definition Category : list string := ["Increase"; "Decrease"; "Control"].
Definition AggregationMethod : list string := ["Sum"; "Average"].
Definition Frequency : list string :=
  ["Daily"; "Weekly"; "Fortnightly"; "Monthly"].

Definition literal (allowed : list string) (s : string) : bool :=
  existsb (String.eqb s) allowed.

(** The request body of [POST /api/kpis] and [PUT /api/kpis/{kpi_id}]
    (schemas.Kpi). *)
Record Kpi : Type := {
  b_name : string;
  b_unit : string;
  b_category : string;
  b_weightage : Q;
  b_start_value : Q;
  b_target_value : Q;
  b_aggregation : string;
  b_frequency : string
}.

(** What the schema layer checks before a handler receives a [Kpi]: the
    three literal fields, and [weightage > 0] ([Field(..., gt=0)]). *)
Definition Kpi_valid (k : Kpi) : bool :=
  literal Category (b_category k)
  && Py.lt 0 (b_weightage k)
  && literal AggregationMethod (b_aggregation k)
  && literal Frequency (b_frequency k).

Section Registry.

Context {B : Bson}.

(** What the schema layer checks on a [KpiData]:
    [conlist(float, min_length=1)]. *)
Definition KpiData_valid (p : KpiData) : bool :=
  (1 <=? List.length (p_values p))%nat.

(** [kpi.model_dump()] with the two timestamps, stored under identifier
    [o]. *)
Definition kpi_document (o : ObjectId) (k : Kpi) (created updated : Z)
  : KpiDoc :=
  {| k_id := o;
     k_name := b_name k;
     k_unit := b_unit k;
     k_category := Some (b_category k);
     k_weightage := Some (b_weightage k);
     k_start_value := b_start_value k;
     k_target_value := b_target_value k;
     k_aggregation := Some (b_aggregation k);
     k_frequency := b_frequency k;
     k_created_at := created;
     k_updated_at := updated |}.

(** [db['kpi'].insert_one(doc)]: the document is appended.  The server
    refuses an identifier the collection already holds; the driver then
    raises [DuplicateKeyError], which no handler catches: [None]. *)
Definition kpi_insert_one (doc : KpiDoc) (db : Db) : option Db :=
  if existsb (fun d => ObjectId_eqb (k_id d) (k_id doc)) (kpi db) then None
  else Some {| kpi := kpi db ++ [doc]; kpi_data := kpi_data db |}.

(** The body returned by [POST /api/kpis]: ["id"] and the keys of
    [kpi_dict], to which [insert_one] has added ["_id"]. *)
Record KpiCreated : Type := {
  c_id : string;
  c_doc : KpiDoc
}.

(** [create_kpi(kpi)] (main.py, lines 89-95); [created] and [updated] are
    the two clock readings and [inserted_id] the identifier the driver
    generates for the document. *)
Definition create_kpi (created updated : Z) (inserted_id : ObjectId)
  (kpi : Kpi) (db : Db) : option (KpiCreated * Db) :=
  let kpi_dict := kpi_document inserted_id kpi created updated in
  match kpi_insert_one kpi_dict db with
  | None => None
  | Some db' =>
      Some ({| c_id := ObjectId_str inserted_id; c_doc := kpi_dict |}, db')
  end.

(** The ["data"] entry of an item of [GET /api/kpis]. *)
Record DataView : Type := {
  d_values : option (list Q);
  d_actual : option Q;
  d_percentage : option Q;
  d_updated_at : option Z
}.

(** An item of the list returned by [GET /api/kpis]. *)
Record KpiItem : Type := {
  i_id : string;
  i_name : string;
  i_unit : string;
  i_category : Py.tag;
  i_weightage : option Q;
  i_start_value : Q;
  i_target_value : Q;
  i_aggregation : Py.tag;
  i_frequency : string;
  i_data : DataView
}.

(** [data.get(key) if data else None], for the four keys. *)
Definition data_view (data : option Snapshot) : DataView :=
  match data with
  | Some d =>
      {| d_values := Some (s_values d);
         d_actual := Some (s_actual d);
         d_percentage := s_percentage d;
         d_updated_at := Some (s_updated_at d) |}
  | None =>
      {| d_values := None; d_actual := None;
         d_percentage := None; d_updated_at := None |}
  end.

(** The item built for document [it] and the snapshot found for it. *)
Definition kpi_item (it : KpiDoc) (data : option Snapshot) : KpiItem :=
  {| i_id := ObjectId_str (k_id it);
     i_name := k_name it;
     i_unit := k_unit it;
     i_category := k_category it;
     i_weightage := k_weightage it;
     i_start_value := k_start_value it;
     i_target_value := k_target_value it;
     i_aggregation := k_aggregation it;
     i_frequency := k_frequency it;
     i_data := data_view data |}.

(** One iteration of the loop of [list_kpis]. *)
Definition list_kpis_step (it : KpiDoc) (result : list KpiItem)
  : handler (list KpiItem) :=
  (let kid := ObjectId_str (k_id it) in
   data <- kpi_data_find_one kid ;;
   ret (result ++ [kpi_item it data])%list)%handler.

(** [list_kpis()] (main.py, lines 98-122) *)
Definition list_kpis : handler (list KpiItem) :=
  (items <- kpi_find ;;
   for_each items list_kpis_step [])%handler.

(** [{"$set": {**kpi.model_dump(), "updated_at": now}}] applied to a
    document: the eight fields and [updated_at] are overwritten, [_id] and
    [created_at] stay. *)
Definition set_kpi (k : Kpi) (now : Z) (d : KpiDoc) : KpiDoc :=
  kpi_document (k_id d) k (k_created_at d) now.

(** [update_one({"_id": o}, ...)] on a list of documents: the first match is
    rewritten; [None] when nothing matches. *)
Fixpoint update_first_kpi (o : ObjectId) (f : KpiDoc -> KpiDoc)
  (c : list KpiDoc) : option (list KpiDoc) :=
  match c with
  | [] => None
  | d :: c' =>
      if ObjectId_eqb (k_id d) o then Some (f d :: c')
      else option_map (cons d) (update_first_kpi o f c')
  end.

(** [db['kpi'].update_one({"_id": o}, {"$set": ...})], returning
    [matched_count]. *)
Definition kpi_update_one (o : ObjectId) (f : KpiDoc -> KpiDoc)
  : handler nat :=
  fun db =>
    match update_first_kpi o f (kpi db) with
    | Some c' => (Ok 1%nat, {| kpi := c'; kpi_data := kpi_data db |})
    | None => (Ok 0%nat, db)
    end.

(** The body returned by [PUT /api/kpis/{kpi_id}]. *)
Record KpiUpdated : Type := {
  u_id : string;
  u_kpi : Kpi
}.

(** [update_kpi(kpi_id, kpi)] (main.py, lines 138-143) *)
Definition update_kpi (now : Z) (kpi_id : string) (kpi : Kpi)
  : handler KpiUpdated :=
  (o <- lift (oid kpi_id) ;;
   matched_count <- kpi_update_one o (set_kpi kpi now) ;;
   if (matched_count =? 0)%nat
   then raise (HTTPException 404 "KPI not found")
   else ret {| u_id := kpi_id; u_kpi := kpi |})%handler.

(** ** States the handlers can produce *)

Definition empty_db : Db := {| kpi := []; kpi_data := [] |}.

(** One write through the API, the bodies having passed the schema layer. *)
Inductive api_step : Db -> Db -> Prop :=
| step_create (created updated : Z) (inserted_id : ObjectId) (body : Kpi)
    (db db' : Db) (r : KpiCreated) :
    Kpi_valid body = true ->
    create_kpi created updated inserted_id body db = Some (r, db') ->
    api_step db db'
| step_update (now : Z) (kpi_id : string) (body : Kpi) (db db' : Db)
    (r : result KpiUpdated) :
    Kpi_valid body = true ->
    update_kpi now kpi_id body db = (r, db') ->
    api_step db db'
| step_save (now : Z) (kpi_id : string) (payload : KpiData) (db db' : Db)
    (r : result Snapshot) :
    save_kpi_data now kpi_id payload db = (r, db') ->
    api_step db db'.

Inductive reachable : Db -> Prop :=
| reachable_empty : reachable empty_db
| reachable_step (db db' : Db) :
    reachable db -> api_step db db' -> reachable db'.

(** A stored KPI is the dump of a body that passed the schema layer. *)
Definition KpiDoc_valid (d : KpiDoc) : Prop :=
  exists body,
    Kpi_valid body = true
    /\ d = kpi_document (k_id d) body (k_created_at d) (k_updated_at d).

(** A stored snapshot has a percentage, within bounds. *)
Definition Snapshot_in_range (d : Snapshot) : Prop :=
  exists p, s_percentage d = Some p /\ in_0_100 p.

(** A stored snapshot is keyed by a spelling of the identifier of a stored
    KPI. *)
Definition Snapshot_referenced (c : list KpiDoc) (d : Snapshot) : Prop :=
  exists o, ObjectId_parse (s_kpi_id d) = Some o /\ In o (map k_id c).

Record consistent (db : Db) : Prop := {
  ids_unique : NoDup (map k_id (kpi db));
  keys_unique : unique_keys (kpi_data db);
  docs_valid : Forall KpiDoc_valid (kpi db);
  percentages_in_range : Forall Snapshot_in_range (kpi_data db);
  snapshots_referenced : Forall (Snapshot_referenced (kpi db)) (kpi_data db)
}.




End Registry.

(** Worked inputs for the registry handlers. *)

Definition example_body : Kpi :=
  {| b_name := "Revenue"; b_unit := "$"; b_category := "Increase";
     b_weightage := 40; b_start_value := 0; b_target_value := 200;
     b_aggregation := "Sum"; b_frequency := "Monthly" |}.

(** [id_a] written in upper case: another spelling of the same identifier. *)
Definition id_a_upper : string := "65A1B2C3D4E5F60718293A4B".

(** * Properties *)

(** ** Python comparisons against the order of the rationals *)

Lemma Py_le_iff (a b : Q) : Py.le a b = true <-> a <= b.
Proof. apply Qle_bool_iff. Qed.

Lemma Py_ge_iff (a b : Q) : Py.ge a b = true <-> b <= a.
Proof. apply Qle_bool_iff. Qed.

Lemma Py_lt_iff (a b : Q) : Py.lt a b = true <-> a < b.
Proof.
  unfold Py.lt. rewrite negb_true_iff. split.
  - intros H. apply Qnot_le_lt. intros Hle.
    apply Qle_bool_iff in Hle. congruence.
  - intros H. destruct (Qle_bool b a) eqn:E; [|reflexivity].
    apply Qle_bool_iff in E. lra.
Qed.

Lemma Py_lt_false_iff (a b : Q) : Py.lt a b = false <-> b <= a.
Proof.
  split.
  - intros H. apply Qnot_lt_le. intros Hlt.
    apply Py_lt_iff in Hlt. congruence.
  - intros H. destruct (Py.lt a b) eqn:E; [|reflexivity].
    apply Py_lt_iff in E. lra.
Qed.

Lemma Py_eq_iff (a b : Q) : Py.eq a b = true <-> a == b.
Proof. apply Qeq_bool_iff. Qed.

Lemma Py_eq_false_iff (a b : Q) : Py.eq a b = false <-> ~ a == b.
Proof.
  split.
  - apply Qeq_bool_neq.
  - intros H. destruct (Py.eq a b) eqn:E; [|reflexivity].
    apply Py_eq_iff in E. contradiction.
Qed.

(** Division returns the quotient exactly when the divisor is not zero. *)
Lemma Py_div_ok (a b : Q) : ~ b == 0 -> Py.div a b = Ok (a / b).
Proof.
  intros H. unfold Py.div. now rewrite (proj2 (Py_eq_false_iff b 0) H).
Qed.

(** ** [sum] is the arithmetic sum *)

Lemma fold_left_Qplus_acc (l : list Q) (acc : Q) :
  fold_left Qplus l acc == acc + Qsum l.
Proof.
  revert acc. induction l as [|x l IH]; intros acc; simpl.
  - lra.
  - rewrite IH. lra.
Qed.

Lemma Py_sum_Qsum (l : list Q) : Py.sum l == Qsum l.
Proof. unfold Py.sum. rewrite fold_left_Qplus_acc. lra. Qed.

Lemma Py_len_pos (x : Q) (l : list Q) : 0 < Py.len (x :: l).
Proof.
  unfold Py.len. change 0 with (inject_Z 0). rewrite <- Zlt_Qlt.
  simpl List.length. lia.
Qed.

(** ** [compute_actual] *)

(** On a non-empty list and with any aggregation other than ['Sum'] the
    function returns, without raising, the mean of the values. *)
Lemma compute_actual_mean (values : list Q) (aggregation : Py.tag) :
  values <> [] ->
  Py.tag_is aggregation "Sum" = false ->
  exists r, compute_actual values aggregation = Ok r /\ r == mean values.
Proof.
  intros Hne Hagg. destruct values as [|x l]; [congruence|].
  unfold compute_actual. rewrite Hagg.
  pose proof (Py_len_pos x l) as Hlen.
  rewrite Py_div_ok by lra.
  eexists. split; [reflexivity|].
  unfold mean. fold (Py.len (x :: l)). rewrite Py_sum_Qsum. reflexivity.
Qed.



(** [compute_actual] never raises. *)
Lemma compute_actual_returns (values : list Q) (aggregation : Py.tag) :
  exists r, compute_actual values aggregation = Ok r.
Proof.
  destruct values as [|v values]; [now exists 0|].
  destruct (Py.tag_is aggregation "Sum") eqn:E.
  - exists (Py.sum (v :: values)). simpl. now rewrite E.
  - destruct (compute_actual_mean (v :: values) aggregation) as [r [H _]];
      [discriminate | assumption | now exists r].
Qed.




(** ** [clamp_percentage] *)

Lemma clamp_percentage_cases (p : Q) :
  (p <= 0 /\ clamp_percentage p = 0)
  \/ (0 < p < 100 /\ clamp_percentage p = p)
  \/ (100 <= p /\ clamp_percentage p = 100).
Proof.
  unfold clamp_percentage, Py.min, Py.max.
  destruct (Py.lt p 100) eqn:E1.
  - apply Py_lt_iff in E1. destruct (Py.lt 0 p) eqn:E2.
    + apply Py_lt_iff in E2. right; left. auto.
    + apply Py_lt_false_iff in E2. left. auto.
  - apply Py_lt_false_iff in E1. right; right. split; [assumption|].
    reflexivity.
Qed.

Lemma clamp_percentage_range (p : Q) : in_0_100 (clamp_percentage p).
Proof.
  unfold in_0_100.
  destruct (clamp_percentage_cases p) as [[H E]|[[H E]|[H E]]];
    rewrite E; lra.
Qed.

(** ** [compute_percentage] *)

Lemma compute_percentage_increase (actual start target : Q) :
  ~ start == target ->
  compute_percentage (Some "Increase") actual start target
  = Ok (clamp_percentage ((actual - start) / (target - start) * 100)).
Proof.
  intros H. unfold compute_percentage. simpl.
  rewrite (proj2 (Py_eq_false_iff start target) H). simpl.
  rewrite Py_div_ok by lra. reflexivity.
Qed.

Lemma compute_percentage_decrease (actual start target : Q) :
  ~ start == target ->
  compute_percentage (Some "Decrease") actual start target
  = Ok (clamp_percentage ((start - actual) / (start - target) * 100)).
Proof.
  intros H. unfold compute_percentage. simpl.
  rewrite (proj2 (Py_eq_false_iff start target) H). simpl.
  rewrite Py_div_ok by lra. reflexivity.
Qed.

Lemma compute_percentage_guard (category : Py.tag) (actual start target : Q) :
  category = Some "Increase" \/ category = Some "Decrease" ->
  start == target ->
  compute_percentage category actual start target = Ok 0.
Proof.
  intros Hc H. unfold compute_percentage.
  rewrite (proj2 (Py_eq_iff start target) H).
  destruct Hc as [-> | ->]; reflexivity.
Qed.

(** Any category other than the two linear ones takes the Control branch,
    whose value is decided by the condition of line 53 alone. *)
Lemma compute_percentage_control (category : Py.tag) (actual start target : Q) :
  Py.tag_is category "Increase" = false ->
  Py.tag_is category "Decrease" = false ->
  compute_percentage category actual start target
  = Ok (if control_second actual start target then 100 else 0).
Proof.
  intros H1 H2. unfold compute_percentage. rewrite H1, H2. simpl.
  destruct (control_second actual start target); reflexivity.
Qed.

Lemma control_second_iff (actual start target : Q) :
  control_second actual start target = true <-> in_band actual start target.
Proof.
  unfold control_second, in_band.
  rewrite orb_true_iff, !andb_true_iff, !Py_le_iff.
  destruct (Q.min_spec start target) as [[Hlt Hmin]|[Hle Hmin]];
    destruct (Q.max_spec start target) as [[Hlt' Hmax]|[Hle' Hmax]];
    rewrite Hmin, Hmax; split; intros H; try lra;
    solve [left; lra | right; lra].
Qed.

Lemma control_first_iff (actual start target : Q) :
  control_first actual start target = true
  <-> start <= actual /\ actual <= target.
Proof.
  unfold control_first.
  rewrite orb_true_iff, !andb_true_iff, !Py_ge_iff, !Py_le_iff. tauto.
Qed.



(** C2. For Control the function returns 100 exactly when [actual] lies in
    the closed interval bounded by [start] and [target], in either order,
    and 0 otherwise; both end points give 100, and so does
    start=20, target=10, actual=15. *)
Theorem compute_percentage_control_band (actual start target : Q) :
  (compute_percentage (Some "Control") actual start target = Ok 100
   <-> in_band actual start target)
  /\ (~ in_band actual start target ->
      compute_percentage (Some "Control") actual start target = Ok 0)
  /\ compute_percentage (Some "Control") start start target = Ok 100
  /\ compute_percentage (Some "Control") target start target = Ok 100
  /\ compute_percentage (Some "Control") 15 20 10 = Ok 100.
Proof.
  assert (Hc : forall a s t,
             compute_percentage (Some "Control") a s t
             = Ok (if control_second a s t then 100 else 0)).
  { intros. now apply compute_percentage_control. }
  assert (Hin : forall a s t, in_band a s t ->
                  compute_percentage (Some "Control") a s t = Ok 100).
  { intros a s t H. rewrite Hc.
    now rewrite (proj2 (control_second_iff a s t) H). }
  split; [|split; [|split; [|split]]].
  - split; [|apply Hin].
    rewrite Hc.
    destruct (control_second actual start target) eqn:E; [|discriminate].
    intros _. now apply control_second_iff.
  - intros H. rewrite Hc.
    destruct (control_second actual start target) eqn:E; [|reflexivity].
    apply control_second_iff in E. contradiction.
  - apply Hin. unfold in_band.
    split; [apply Q.le_min_l | apply Q.le_max_l].
  - apply Hin. unfold in_band.
    split; [apply Q.le_min_r | apply Q.le_max_r].
  - reflexivity.
Qed.

Lemma compute_percentage_control_band_witness :
  ~ in_band 25 10 20
  /\ compute_percentage (Some "Control") 25 10 20 = Ok 0.
Proof.
  assert (H : ~ in_band 25 10 20).
  { unfold in_band. intros [_ H]. revert H. vm_compute. intros H. now apply H. }
  split; [exact H|].
  apply (proj1 (proj2 (compute_percentage_control_band 25 10 20))). exact H.
Defined.

(** [compute_percentage] never raises, and its value is within bounds. *)
Lemma compute_percentage_returns
  (category : Py.tag) (actual start target : Q) :
  exists r, compute_percentage category actual start target = Ok r
            /\ in_0_100 r.
Proof.
  unfold compute_percentage.
  destruct (Py.tag_is category "Increase") eqn:Hi; simpl.
  - destruct (Py.eq start target) eqn:He.
    + exists 0. split; [reflexivity | unfold in_0_100; lra].
    + apply Py_eq_false_iff in He. rewrite Py_div_ok by lra. simpl.
      eexists. split; [reflexivity | apply clamp_percentage_range].
  - destruct (Py.tag_is category "Decrease") eqn:Hd; simpl.
    + destruct (Py.eq start target) eqn:He.
      * exists 0. split; [reflexivity | unfold in_0_100; lra].
      * apply Py_eq_false_iff in He. rewrite Py_div_ok by lra. simpl.
        eexists. split; [reflexivity | apply clamp_percentage_range].
    + eexists. split; [reflexivity | apply clamp_percentage_range].
Qed.

(** C3. Whatever the category and the numbers, [compute_percentage] returns
    (it does not raise) a value between 0 and 100 inclusive; for Increase
    with start=0 and target=100, actual=150 gives 100 and actual=-10
    gives 0. *)
Theorem compute_percentage_range :
  (forall (category : Py.tag) (actual start target : Q),
      exists r, compute_percentage category actual start target = Ok r
                /\ in_0_100 r)
  /\ compute_percentage (Some "Increase") 150 0 100 = Ok 100
  /\ compute_percentage (Some "Increase") (-10) 0 100 = Ok 0.
Proof.
  split; [|split].
  - intros category actual start target.
    destruct (compute_percentage_returns category actual start target)
      as [r [E H]].
    exists r. split; assumption.
  - reflexivity.
  - reflexivity.
Qed.

(** C9, as stated, fails: with actual=15, start=20, target=10 the condition
    of line 51 is false and the condition of line 53 is true. *)
Lemma control_conditions_differ :
  control_first 15 20 10 = false /\ control_second 15 20 10 = true.
Proof. split; reflexivity. Qed.

(** C9, amended. The condition of line 51 is membership in [start, target]
    in that order only; the condition of line 53 is membership in the
    interval in either order.  The first implies the second, they agree
    exactly unless [target <= actual <= start] with [target < start], and
    the value assigned from the first is overwritten: the result is that of
    the second alone. *)
Theorem control_conditions_related (actual start target : Q) :
  (control_first actual start target = true
   <-> start <= actual /\ actual <= target)
  /\ (control_second actual start target = true
      <-> in_band actual start target)
  /\ (control_first actual start target = true ->
      control_second actual start target = true)
  /\ (control_first actual start target = control_second actual start target
      <-> ~ (target <= actual /\ actual <= start /\ target < start))
  /\ compute_percentage (Some "Control") actual start target
     = Ok (if control_second actual start target then 100 else 0).
Proof.
  split; [apply control_first_iff|].
  split; [apply control_second_iff|].
  split.
  { intros H. apply control_first_iff in H.
    unfold control_second. rewrite orb_true_iff, !andb_true_iff, !Py_le_iff.
    now left. }
  split; [|now apply compute_percentage_control].
  assert (H2 : control_second actual start target = true
               <-> (start <= actual /\ actual <= target)
                   \/ (target <= actual /\ actual <= start)).
  { unfold control_second.
    now rewrite orb_true_iff, !andb_true_iff, !Py_le_iff. }
  rewrite eq_iff_eq_true, control_first_iff, H2. split.
  - intros [_ H] [Ha [Hb Hc]].
    assert (start <= actual /\ actual <= target) as [? ?]
      by (apply H; right; split; assumption).
    lra.
  - intros Hn. split; [intros H; left; exact H|].
    intros [H|[Ha Hb]]; [exact H|].
    destruct (Qlt_le_dec target start) as [Hlt|Hle].
    + exfalso. apply Hn. auto.
    + lra.
Qed.

Lemma control_conditions_related_witness :
  control_first 15 10 20 = true /\ control_second 15 10 20 = true.
Proof.
  assert (H : control_first 15 10 20 = true) by reflexivity.
  split; [exact H|].
  apply (proj1 (proj2 (proj2 (control_conditions_related 15 10 20)))).
  exact H.
Defined.

(** ** Formatting with two decimals *)

Lemma round_half_even_nearest (q : Q) :
  Qabs (inject_Z (round_half_even q) - q) <= 1 # 2.
Proof.
  destruct q as [num den]. unfold round_half_even. simpl Qnum. simpl Qden.
  pose proof (Z.div_mod num (Zpos den) ltac:(lia)) as Hdm.
  pose proof (Z.mod_pos_bound num (Zpos den) ltac:(lia)) as Hb.
  set (n := (num / Zpos den)%Z) in *. set (r := (num mod Zpos den)%Z) in *.
  apply Qabs_Qle_condition.
  destruct (Z.compare_spec (2 * r) (Zpos den)) as [E|E|E];
    [destruct (Z.even n)| |];
    unfold Qle, Qminus, Qplus, Qopp, inject_Z; simpl; split; nia.
Qed.

(** The text printed for [q] is a sign, the integer part, a point and two
    decimal digits of the number of hundredths nearest to [|q|]. *)
Lemma format_2f_shape (q : Q) :
  exists n : Z,
    (0 <= n)%Z
    /\ Qabs (inject_Z n - Qabs q * 100) <= 1 # 2
    /\ (0 <= (n mod 100) / 10 <= 9)%Z
    /\ (0 <= n mod 10 <= 9)%Z
    /\ format_2f q
       = (if Py.lt q 0 then "-" else "")
         ++ decimal (n / 100) ++ "."
         ++ digit ((n mod 100) / 10) ++ digit (n mod 10).
Proof.
  exists (round_half_even (Qabs q * 100)).
  assert (H0 : (0 <= round_half_even (Qabs q * 100))%Z).
  { pose proof (round_half_even_nearest (Qabs q * 100)) as H.
    apply Qabs_Qle_condition in H. destruct H as [H1 H2].
    pose proof (Qabs_nonneg q) as Hq.
    assert (-(1) < inject_Z (round_half_even (Qabs q * 100))) as Hz by lra.
    change (-(1)) with (inject_Z (-1)) in Hz. rewrite <- Zlt_Qlt in Hz. lia. }
  split; [exact H0|]. split; [apply round_half_even_nearest|].
  split; [|split; [|reflexivity]].
  - pose proof (Z.mod_pos_bound (round_half_even (Qabs q * 100)) 100
                  ltac:(lia)) as Hm.
    split; [apply Z.div_pos; lia|].
    apply Z.lt_succ_r. apply Z.div_lt_upper_bound; lia.
  - pose proof (Z.mod_pos_bound (round_half_even (Qabs q * 100)) 10
                  ltac:(lia)) as Hm.
    lia.
Qed.

(** ** The scan of [weighted_score] *)

Section ScoreFacts.

Context {B : Bson}.

Lemma float_or_0_skip (x : option Q) :
  Py.le (float_or_0 x) 0 = true
  <-> x = None \/ exists w, x = Some w /\ w <= 0.
Proof.
  destruct x as [q|]; simpl.
  - destruct (Py.eq q 0) eqn:E.
    + apply Py_eq_iff in E. split.
      * intros _. right. exists q. split; [reflexivity | lra].
      * intros _. reflexivity.
    + rewrite Py_le_iff. split.
      * intros H. right. now exists q.
      * intros [H|[w [H Hw]]]; [discriminate | congruence].
  - split; [now left | reflexivity].
Qed.

Lemma float_or_0_keep (q : Q) : 0 < q -> float_or_0 (Some q) = q.
Proof.
  intros H. simpl. destruct (Py.eq q 0) eqn:E; [|reflexivity].
  apply Py_eq_iff in E. lra.
Qed.

Lemma contribution_weight_pos (data : list Snapshot) (k : KpiDoc) (p w : Q) :
  contribution data k = Some (p, w) ->
  0 < w
  /\ k_weightage k = Some w
  /\ exists d, snapshot_of data k = Some d /\ s_percentage d = Some p.
Proof.
  unfold contribution. destruct (snapshot_of data k) as [d|]; [|discriminate].
  destruct (s_percentage d) as [p'|] eqn:Ep; [|discriminate].
  destruct (k_weightage k) as [w'|]; [|discriminate].
  destruct (Qlt_le_dec 0 w') as [Hlt|Hle]; [|discriminate].
  intros E. injection E as -> ->.
  split; [assumption|]. split; [reflexivity|]. exists d. split; trivial.
Qed.

Lemma qualifies_false_iff (data : list Snapshot) (k : KpiDoc) :
  qualifies data k = false <-> excluded data k.
Proof.
  unfold qualifies, excluded, contribution.
  destruct (snapshot_of data k) as [d|].
  - destruct (s_percentage d) as [p|] eqn:Ep.
    + destruct (k_weightage k) as [w|].
      * destruct (Qlt_le_dec 0 w) as [Hlt|Hle]; split; intros H.
        -- discriminate.
        -- destruct H as [H|[[d' [H1 H2]]|[H|[w' [H1 H2]]]]];
             try discriminate.
           ++ injection H1 as <-. congruence.
           ++ injection H1 as <-. lra.
        -- right; right; right. exists w. auto.
        -- reflexivity.
      * split; [intros _; right; right; now left | reflexivity].
    + split; [|reflexivity]. intros _. right; left. exists d. auto.
  - split; [now left | reflexivity].
Qed.

(** One iteration reads the store, leaves it as it is, and adds the
    contribution of the KPI when there is one. *)
Lemma weighted_score_step_spec (k : KpiDoc) (acc : Q * Q) (db : Db) :
  weighted_score_step k acc db
  = (Ok (match contribution (kpi_data db) k with
         | Some pw => accumulate acc pw
         | None => acc
         end), db).
Proof.
  destruct acc as [tw ws].
  unfold weighted_score_step, contribution, snapshot_of, bind,
    kpi_data_find_one, ret.
  destruct (find_data (ObjectId_str (k_id k)) (kpi_data db)) as [d|];
    [|reflexivity].
  destruct (s_percentage d) as [p|]; [|reflexivity].
  destruct (Py.le (float_or_0 (k_weightage k)) 0) eqn:E.
  - apply float_or_0_skip in E.
    destruct E as [E|[w [E Hw]]]; rewrite E; [reflexivity|].
    destruct (Qlt_le_dec 0 w) as [Hlt|Hle]; [lra | reflexivity].
  - destruct (k_weightage k) as [w|] eqn:Ew; [|discriminate E].
    destruct (Qlt_le_dec 0 w) as [Hlt|Hle].
    + rewrite (float_or_0_keep w Hlt). reflexivity.
    + assert (Py.le (float_or_0 (Some w)) 0 = true) as F; [|congruence].
      apply float_or_0_skip. right. now exists w.
Qed.

Lemma for_each_weighted_score_step (kpis : list KpiDoc) (acc : Q * Q) (db : Db) :
  for_each kpis weighted_score_step acc db
  = (Ok (fold_left accumulate (contributions (kpi_data db) kpis) acc), db).
Proof.
  revert acc. induction kpis as [|k kpis IH]; intros acc; simpl.
  - reflexivity.
  - unfold bind. rewrite weighted_score_step_spec.
    destruct (contribution (kpi_data db) k) as [pw|]; simpl; apply IH.
Qed.

Lemma fold_left_accumulate (c : list (Q * Q)) (acc : Q * Q) :
  fst (fold_left accumulate c acc) == fst acc + sum_weights c
  /\ snd (fold_left accumulate c acc) == snd acc + sum_weighted c.
Proof.
  revert acc. induction c as [|pw c IH]; intros acc; simpl.
  - unfold sum_weights, sum_weighted. simpl. split; lra.
  - destruct (IH (accumulate acc pw)) as [H1 H2].
    rewrite H1, H2. unfold sum_weights, sum_weighted. simpl. split; lra.
Qed.

Lemma contributions_app (data : list Snapshot) (l1 l2 : list KpiDoc) :
  contributions data (l1 ++ l2)
  = (contributions data l1 ++ contributions data l2)%list.
Proof.
  induction l1 as [|k l1 IH]; simpl; [reflexivity|].
  destruct (contribution data k); simpl; now rewrite IH.
Qed.

Lemma contributions_In (data : list Snapshot) (kpis : list KpiDoc) (pw : Q * Q) :
  In pw (contributions data kpis)
  <-> exists k, In k kpis /\ contribution data k = Some pw.
Proof.
  induction kpis as [|k kpis IH]; simpl.
  - split; [contradiction | intros [k [[] _]]].
  - destruct (contribution data k) as [pw'|] eqn:E; simpl; rewrite IH; split.
    + intros [<-|[k' [Hin Hk']]]; [exists k; auto | exists k'; auto].
    + intros [k' [[<-|Hin] Hk']]; [left; congruence | right; eauto].
    + intros [k' [Hin Hk']]. exists k'. auto.
    + intros [k' [[<-|Hin] Hk']]; [congruence | eauto].
Qed.

Lemma contributions_nil_iff (data : list Snapshot) (kpis : list KpiDoc) :
  contributions data kpis = []
  <-> forall k, In k kpis -> qualifies data k = false.
Proof.
  split.
  - intros E k Hin. unfold qualifies.
    destruct (contribution data k) as [pw|] eqn:Ek; [|reflexivity].
    assert (In pw (contributions data kpis)) as H
      by (apply contributions_In; eauto).
    rewrite E in H. contradiction.
  - intros H. destruct (contributions data kpis) as [|pw c] eqn:E;
      [reflexivity|].
    assert (In pw (contributions data kpis)) as Hin by (rewrite E; now left).
    apply contributions_In in Hin. destruct Hin as [k [Hin Hk]].
    specialize (H k Hin). unfold qualifies in H. rewrite Hk in H.
    discriminate.
Qed.

Lemma contributions_weights_pos (data : list Snapshot) (kpis : list KpiDoc) :
  Forall (fun pw => 0 < snd pw) (contributions data kpis).
Proof.
  apply Forall_forall. intros [p w] Hin.
  apply contributions_In in Hin. destruct Hin as [k [_ Hk]].
  apply contribution_weight_pos in Hk. simpl. tauto.
Qed.

Lemma sum_weights_nonneg (c : list (Q * Q)) :
  Forall (fun pw => 0 < snd pw) c -> 0 <= sum_weights c.
Proof.
  unfold sum_weights. induction 1 as [|pw c Hpw _ IH]; simpl; lra.
Qed.

Lemma sum_weights_pos (c : list (Q * Q)) :
  Forall (fun pw => 0 < snd pw) c -> c <> [] -> 0 < sum_weights c.
Proof.
  intros H Hne. destruct c as [|pw c]; [congruence|].
  inversion H as [|? ? Hpw Hc]; subst.
  pose proof (sum_weights_nonneg c Hc) as Hn.
  unfold sum_weights in *. simpl. lra.
Qed.


End ScoreFacts.

(** ** [weighted_score] *)

Section WeightedScore.

Context {B : Bson}.

Lemma weighted_score_eval (db : Db) :
  weighted_score db
  = let acc := fold_left accumulate
                 (contributions (kpi_data db) (kpi db)) (0, 0) in
    if Py.le (fst acc) 0 then (Ok not_available, db)
    else match Py.div (snd acc) (fst acc) with
         | Ok score => (Ok {| r_weighted_score := Some score;
                              r_display := format_2f score ++ "%" |}, db)
         | Err e => (Err e, db)
         end.
Proof.
  unfold weighted_score, bind, kpi_find.
  rewrite for_each_weighted_score_step.
  destruct (fold_left accumulate _ (0, 0)) as [tw ws]. simpl.
  destruct (Py.le tw 0); [reflexivity|].
  unfold lift. destruct (Py.div ws tw); reflexivity.
Qed.

Lemma weighted_score_none (db : Db) :
  contributions (kpi_data db) (kpi db) = [] ->
  weighted_score db = (Ok not_available, db).
Proof. intros E. rewrite weighted_score_eval, E. reflexivity. Qed.

Lemma weighted_score_some (db : Db) :
  contributions (kpi_data db) (kpi db) <> [] ->
  exists score,
    weighted_score db
    = (Ok {| r_weighted_score := Some score;
             r_display := format_2f score ++ "%" |}, db)
    /\ score == sum_weighted (contributions (kpi_data db) (kpi db))
                / sum_weights (contributions (kpi_data db) (kpi db)).
Proof.
  intros Hne. rewrite weighted_score_eval.
  set (c := contributions (kpi_data db) (kpi db)) in *.
  destruct (fold_left_accumulate c (0, 0)) as [H1 H2]. simpl in H1, H2.
  pose proof (sum_weights_pos c (contributions_weights_pos _ _) Hne) as Hpos.
  cbv zeta.
  destruct (Py.le (fst (fold_left accumulate c (0, 0))) 0) eqn:E.
  - apply Py_le_iff in E. lra.
  - rewrite Py_div_ok by lra.
    eexists. split; [reflexivity|]. rewrite H1, H2.
    rewrite !Qplus_0_l. reflexivity.
Qed.


End WeightedScore.

Section WeightedScoreClaims.

Context {B : Bson}.

(** C4. A KPI that has no snapshot, or whose snapshot has no percentage, or
    whose weightage is absent or not positive, leaves both accumulators as
    they are, and the answer is the one computed without it; when the total
    weight after the scan is not positive, and so when every KPI is left
    out, the answer is the absent score with display "N/A", returned
    normally. *)
Theorem weighted_score_exclusion (db : Db) :
  (forall k acc,
      excluded (kpi_data db) k ->
      weighted_score_step k acc db = (Ok acc, db))
  /\ (forall l1 k l2,
         kpi db = (l1 ++ k :: l2)%list ->
         excluded (kpi_data db) k ->
         fst (weighted_score db)
         = fst (weighted_score
                  {| kpi := (l1 ++ l2)%list; kpi_data := kpi_data db |}))
  /\ (forall total_weight weighted_sum,
         for_each (kpi db) weighted_score_step (0, 0) db
         = (Ok (total_weight, weighted_sum), db) ->
         total_weight <= 0 ->
         weighted_score db = (Ok not_available, db))
  /\ ((forall k, In k (kpi db) -> excluded (kpi_data db) k) ->
      weighted_score db = (Ok not_available, db)).
Proof.
  split; [|split; [|split]].
  - intros k acc Hex. rewrite weighted_score_step_spec.
    apply qualifies_false_iff in Hex. unfold qualifies in Hex.
    destruct (contribution (kpi_data db) k); [discriminate | reflexivity].
  - intros l1 k l2 Hk Hex. rewrite !weighted_score_eval. simpl kpi_data.
    simpl kpi. rewrite Hk, !contributions_app. simpl.
    apply qualifies_false_iff in Hex. unfold qualifies in Hex.
    destruct (contribution (kpi_data db) k); [discriminate|].
    cbv zeta.
    destruct (Py.le _ 0); [reflexivity|].
    destruct (Py.div _ _); reflexivity.
  - intros tw ws Hscan Htw. unfold weighted_score, bind, kpi_find.
    rewrite Hscan. apply Py_le_iff in Htw. now rewrite Htw.
  - intros Hall. apply weighted_score_none. apply contributions_nil_iff.
    intros k Hin. apply qualifies_false_iff. auto.
Qed.

End WeightedScoreClaims.

Lemma weighted_score_exclusion_witness :
  (forall k, In k (kpi db_bare) -> excluded (kpi_data db_bare) k)
  /\ weighted_score db_bare = (Ok not_available, db_bare).
Proof.
  assert (H : forall k, In k (kpi db_bare) -> excluded (kpi_data db_bare) k).
  { intros k _. left. reflexivity. }
  split; [exact H|].
  apply (proj2 (proj2 (proj2 (weighted_score_exclusion db_bare)))). exact H.
Defined.



(** ** The snapshot collection under [update_one(..., upsert=True)] *)

Section StoreFacts.

Context {B : Bson}.

Lemma find_data_None_iff (kid : string) (c : list Snapshot) :
  find_data kid c = None <-> ~ In kid (map s_kpi_id c).
Proof.
  unfold find_data. induction c as [|d c IH]; simpl.
  - tauto.
  - destruct (String.eqb (s_kpi_id d) kid) eqn:E.
    + apply String.eqb_eq in E. split; [discriminate | tauto].
    + apply String.eqb_neq in E. rewrite IH. tauto.
Qed.

Lemma update_first_None_iff (kid : string) (record : Snapshot)
  (c : list Snapshot) :
  update_first kid record c = None <-> find_data kid c = None.
Proof.
  unfold find_data. induction c as [|d c IH]; simpl.
  - tauto.
  - destruct (String.eqb (s_kpi_id d) kid).
    + split; discriminate.
    + destruct (update_first kid record c); simpl.
      * split; [discriminate|]. intros H. apply IH in H. discriminate.
      * split; [|reflexivity]. intros _. now apply IH.
Qed.

(** What the write changes: either the first document stored under the key
    is replaced by the record, or no document had the key and the record is
    appended. *)
Lemma upsert_shape (kid : string) (record : Snapshot) (c : list Snapshot) :
  (exists l1 d l2,
      c = (l1 ++ d :: l2)%list
      /\ upsert kid record c = (l1 ++ record :: l2)%list
      /\ s_kpi_id d = kid
      /\ find_data kid l1 = None)
  \/ (find_data kid c = None /\ upsert kid record c = (c ++ [record])%list).
Proof.
  unfold upsert. destruct (update_first kid record c) as [c'|] eqn:E.
  - left. revert c' E. induction c as [|d c IH]; intros c' E; simpl in E.
    + discriminate.
    + destruct (String.eqb (s_kpi_id d) kid) eqn:Ed.
      * injection E as <-. exists [], d, c.
        apply String.eqb_eq in Ed. repeat split; auto.
      * destruct (update_first kid record c) as [c''|]; [|discriminate].
        simpl in E. injection E as <-.
        destruct (IH c'' eq_refl) as [l1 [d' [l2 [H1 [H2 [H3 H4]]]]]].
        exists (d :: l1), d', l2. subst c. rewrite H2.
        repeat split; auto.
        unfold find_data in *. simpl. now rewrite Ed.
  - right. split; [|reflexivity]. now apply update_first_None_iff in E.
Qed.

Lemma find_data_app (kid : string) (l1 l2 : list Snapshot) :
  find_data kid (l1 ++ l2)
  = match find_data kid l1 with
    | Some d => Some d
    | None => find_data kid l2
    end.
Proof.
  unfold find_data. induction l1 as [|d l1 IH]; simpl; [reflexivity|].
  destruct (String.eqb (s_kpi_id d) kid); [reflexivity | exact IH].
Qed.

Lemma find_data_cons (kid : string) (d : Snapshot) (l : list Snapshot) :
  find_data kid (d :: l)
  = if String.eqb (s_kpi_id d) kid then Some d else find_data kid l.
Proof. reflexivity. Qed.

Lemma find_data_upsert_same (kid : string) (record : Snapshot)
  (c : list Snapshot) :
  s_kpi_id record = kid ->
  find_data kid (upsert kid record c) = Some record.
Proof.
  intros Hr.
  destruct (upsert_shape kid record c)
    as [[l1 [d [l2 [Hc [Hu [Hd Hl1]]]]]]|[Hnone Hu]];
    rewrite Hu, find_data_app.
  - rewrite Hl1, find_data_cons, Hr, String.eqb_refl. reflexivity.
  - rewrite Hnone, find_data_cons, Hr, String.eqb_refl. reflexivity.
Qed.

Lemma find_data_upsert_other (kid kid' : string) (record : Snapshot)
  (c : list Snapshot) :
  s_kpi_id record = kid ->
  kid' <> kid ->
  find_data kid' (upsert kid record c) = find_data kid' c.
Proof.
  intros Hr Hne.
  assert (Hk : String.eqb kid kid' = false).
  { apply String.eqb_neq. congruence. }
  destruct (upsert_shape kid record c)
    as [[l1 [d [l2 [Hc [Hu [Hd Hl1]]]]]]|[Hnone Hu]];
    rewrite Hu, find_data_app.
  - rewrite Hc, find_data_app, !find_data_cons, Hr, Hd, Hk. reflexivity.
  - destruct (find_data kid' c); [reflexivity|].
    rewrite find_data_cons, Hr, Hk. reflexivity.
Qed.





Lemma unique_keys_upsert (kid : string) (record : Snapshot)
  (c : list Snapshot) :
  s_kpi_id record = kid ->
  unique_keys c -> unique_keys (upsert kid record c).
Proof.
  unfold unique_keys. intros Hr Hu.
  destruct (upsert_shape kid record c)
    as [[l1 [d [l2 [Hc [Hu' [Hd Hl1]]]]]]|[Hnone Hu']]; rewrite Hu'.
  - rewrite Hc in Hu. rewrite map_app in *. simpl in *.
    now rewrite Hr, <- Hd.
  - rewrite map_app. simpl. rewrite Hr.
    apply find_data_None_iff in Hnone.
    apply NoDup_rev in Hu. rewrite <- (rev_involutive (_ ++ _)).
    apply NoDup_rev. rewrite rev_app_distr. simpl.
    constructor; [|exact Hu]. now rewrite <- in_rev.
Qed.

End StoreFacts.

(** ** [get_kpi] and [save_kpi_data] *)

Section HandlerClaims.

Context {B : Bson}.

Lemma find_kpi_None (o : ObjectId) (c : list KpiDoc) :
  find_kpi o c = None <-> forall doc, In doc c -> k_id doc <> o.
Proof.
  unfold find_kpi. split.
  - intros H doc Hin He.
    pose proof (find_none _ _ H doc Hin) as Hf. simpl in Hf.
    apply ObjectId_eqb_eq in He. congruence.
  - intros H. destruct (find _ c) as [doc|] eqn:E; [|reflexivity].
    apply find_some in E. destruct E as [Hin He].
    apply ObjectId_eqb_eq in He. exfalso. exact (H doc Hin He).
Qed.

(** With identifiers unique in [kpi], the lookup returns the stored KPI. *)
Lemma find_kpi_stored (c : list KpiDoc) (doc : KpiDoc) :
  NoDup (map k_id c) -> In doc c -> find_kpi (k_id doc) c = Some doc.
Proof.
  unfold find_kpi. induction c as [|d c IH]; intros Hnd Hin; simpl in *.
  - contradiction.
  - inversion Hnd as [|? ? Hd Hc]; subst. destruct Hin as [->|Hin].
    + now rewrite (proj2 (ObjectId_eqb_eq (k_id doc) (k_id doc)) eq_refl).
    + destruct (ObjectId_eqb (k_id d) (k_id doc)) eqn:E.
      * apply ObjectId_eqb_eq in E. exfalso. apply Hd. rewrite E.
        now apply in_map.
      * now apply IH.
Qed.




Lemma get_kpi_found (kpi_id : string) (o : ObjectId) (doc : KpiDoc) (db : Db) :
  ObjectId_parse kpi_id = Some o ->
  find_kpi o (kpi db) = Some doc ->
  get_kpi kpi_id db
  = (Ok (kpi_view kpi_id doc (find_data kpi_id (kpi_data db))), db).
Proof.
  intros H Hf. unfold get_kpi, bind, lift, oid, kpi_find_one.
  now rewrite H, Hf.
Qed.


Lemma save_kpi_data_bad_id (now : Z) (kpi_id : string) (payload : KpiData)
  (db : Db) :
  ObjectId_parse kpi_id = None ->
  save_kpi_data now kpi_id payload db
  = (Err (HTTPException 400 "Invalid id format"), db).
Proof. intros H. unfold save_kpi_data, bind, lift, oid. now rewrite H. Qed.

Lemma save_kpi_data_unknown (now : Z) (kpi_id : string) (payload : KpiData)
  (o : ObjectId) (db : Db) :
  ObjectId_parse kpi_id = Some o ->
  find_kpi o (kpi db) = None ->
  save_kpi_data now kpi_id payload db
  = (Err (HTTPException 404 "KPI not found"), db).
Proof.
  intros H Hf. unfold save_kpi_data, bind, lift, oid, kpi_find_one.
  now rewrite H, Hf.
Qed.

Lemma save_kpi_data_found (now : Z) (kpi_id : string) (payload : KpiData)
  (o : ObjectId) (doc : KpiDoc) (db : Db) (actual percentage : Q) :
  ObjectId_parse kpi_id = Some o ->
  find_kpi o (kpi db) = Some doc ->
  compute_actual (p_values payload) (k_aggregation doc) = Ok actual ->
  compute_percentage (k_category doc) actual
    (k_start_value doc) (k_target_value doc) = Ok percentage ->
  let record :=
    snapshot_record now kpi_id (p_values payload) actual percentage in
  save_kpi_data now kpi_id payload db
  = (Ok record,
     {| kpi := kpi db; kpi_data := upsert kpi_id record (kpi_data db) |}).
Proof.
  intros H Hf Ha Hp record.
  unfold save_kpi_data, bind, lift, oid, kpi_find_one, kpi_data_update_one,
    ret.
  now rewrite H, Hf, Ha, Hp.
Qed.


End HandlerClaims.

(** ** Worked instances of the handler claims *)





(** * Further properties of the scoring functions *)


Lemma clamp_percentage_le (p q : Q) :
  p <= q -> clamp_percentage p <= clamp_percentage q.
Proof.
  intros Hpq.
  destruct (clamp_percentage_cases p) as [[Hp Ep]|[[Hp Ep]|[Hp Ep]]];
    destruct (clamp_percentage_cases q) as [[Hq Eq]|[[Hq Eq]|[Hq Eq]]];
    rewrite Ep, Eq; lra.
Qed.

Lemma clamp_percentage_Qeq (p q : Q) :
  p == q -> clamp_percentage p == clamp_percentage q.
Proof.
  intros H. apply Qle_antisym; apply clamp_percentage_le; lra.
Qed.

(** X1. Clamping is idempotent and monotone: a clamped value is left as it
    is, and a larger input never gives a smaller output. *)
Theorem clamp_percentage_idempotent_monotone :
  (forall p, clamp_percentage (clamp_percentage p) = clamp_percentage p)
  /\ (forall p q, p <= q -> clamp_percentage p <= clamp_percentage q).
Proof.
  split; [|exact clamp_percentage_le].
  intros p.
  destruct (clamp_percentage_cases p) as [[H E]|[[H E]|[H E]]]; rewrite E.
  - reflexivity.
  - destruct (clamp_percentage_cases p) as [[H' E']|[[H' E']|[H' E']]];
      try lra. exact E'.
  - reflexivity.
Qed.

Lemma clamp_percentage_idempotent_monotone_witness :
  clamp_percentage 30 <= clamp_percentage 250.
Proof.
  apply (proj2 clamp_percentage_idempotent_monotone 30 250).
  discriminate.
Defined.

(** X2. Increase and Decrease compute the same percentage: for all numbers
    both return, and the two values are equal. *)
Theorem compute_percentage_increase_decrease_agree
  (actual start target : Q) :
  exists r1 r2,
    compute_percentage (Some "Increase") actual start target = Ok r1
    /\ compute_percentage (Some "Decrease") actual start target = Ok r2
    /\ r1 == r2.
Proof.
  destruct (Qeq_dec start target) as [He|Hne].
  - exists 0, 0. repeat split; try (apply compute_percentage_guard; auto).
  - rewrite (compute_percentage_increase _ _ _ Hne),
      (compute_percentage_decrease _ _ _ Hne).
    eexists. eexists. split; [reflexivity|]. split; [reflexivity|].
    apply clamp_percentage_Qeq. field. split; lra.
Qed.




(** X4. With [start < target] the percentage of Increase never decreases
    when [actual] grows, and with [target < start] the percentage of
    Decrease never increases when [actual] grows. *)
Theorem compute_percentage_monotone (a1 a2 start target : Q) :
  a1 <= a2 ->
  (start < target ->
   exists r1 r2,
     compute_percentage (Some "Increase") a1 start target = Ok r1
     /\ compute_percentage (Some "Increase") a2 start target = Ok r2
     /\ r1 <= r2)
  /\ (target < start ->
      exists r1 r2,
        compute_percentage (Some "Decrease") a1 start target = Ok r1
        /\ compute_percentage (Some "Decrease") a2 start target = Ok r2
        /\ r2 <= r1).
Proof.
  intros Ha. split; intros Hst.
  - assert (Hne : ~ start == target) by lra.
    rewrite !(compute_percentage_increase _ _ _ Hne).
    eexists. eexists. split; [reflexivity|]. split; [reflexivity|].
    apply clamp_percentage_le.
    apply Qmult_le_compat_r; [|lra].
    unfold Qdiv. apply Qmult_le_compat_r; [lra|].
    apply Qinv_le_0_compat. lra.
  - assert (Hne : ~ start == target) by lra.
    rewrite !(compute_percentage_decrease _ _ _ Hne).
    eexists. eexists. split; [reflexivity|]. split; [reflexivity|].
    apply clamp_percentage_le.
    apply Qmult_le_compat_r; [|lra].
    unfold Qdiv. apply Qmult_le_compat_r; [lra|].
    apply Qinv_le_0_compat. lra.
Qed.

Lemma compute_percentage_monotone_witness :
  exists r1 r2,
    compute_percentage (Some "Increase") 10 0 100 = Ok r1
    /\ compute_percentage (Some "Increase") 60 0 100 = Ok r2
    /\ r1 <= r2.
Proof.
  assert (Ha : 10 <= 60) by discriminate.
  apply (proj1 (compute_percentage_monotone 10 60 0 100 Ha)).
  reflexivity.
Defined.

(** X5. A category that is neither ['Increase'] nor ['Decrease'] (another
    string, [None]) is scored as Control: 100 inside the band, 0 outside. *)
Theorem compute_percentage_other_category
  (category : Py.tag) (actual start target : Q) :
  category <> Some "Increase" ->
  category <> Some "Decrease" ->
  compute_percentage category actual start target
  = compute_percentage (Some "Control") actual start target
  /\ (in_band actual start target ->
      compute_percentage category actual start target = Ok 100)
  /\ (~ in_band actual start target ->
      compute_percentage category actual start target = Ok 0).
Proof.
  intros Hi Hd.
  assert (Ti : Py.tag_is category "Increase" = false).
  { destruct category as [s|]; simpl; [|reflexivity].
    destruct (String.eqb s "Increase") eqn:E; [|reflexivity].
    apply String.eqb_eq in E. congruence. }
  assert (Td : Py.tag_is category "Decrease" = false).
  { destruct category as [s|]; simpl; [|reflexivity].
    destruct (String.eqb s "Decrease") eqn:E; [|reflexivity].
    apply String.eqb_eq in E. congruence. }
  rewrite (compute_percentage_control category _ _ _ Ti Td).
  rewrite (compute_percentage_control (Some "Control"))
    by reflexivity.
  split; [reflexivity|]. split; intros H.
  - now rewrite (proj2 (control_second_iff actual start target) H).
  - destruct (control_second actual start target) eqn:E; [|reflexivity].
    apply control_second_iff in E. contradiction.
Qed.

Lemma compute_percentage_other_category_witness :
  compute_percentage None 15 20 10
  = compute_percentage (Some "Control") 15 20 10.
Proof.
  assert (Hi : None <> Some "Increase") by discriminate.
  assert (Hd : None <> Some "Decrease") by discriminate.
  exact (proj1 (compute_percentage_other_category None 15 20 10 Hi Hd)).
Defined.

(** ** Further properties of [compute_actual] *)







(** * Further properties of [weighted_score] *)



Section WeightedScoreMore.

Context {B : Bson}.

(** The answer made of a score. *)
Lemma weighted_score_answer (db : Db) :
  (contributions (kpi_data db) (kpi db) = []
   /\ weighted_score db = (Ok not_available, db))
  \/ (contributions (kpi_data db) (kpi db) <> []
      /\ exists score,
           weighted_score db
           = (Ok {| r_weighted_score := Some score;
                    r_display := format_2f score ++ "%" |}, db)
           /\ score == sum_weighted (contributions (kpi_data db) (kpi db))
                       / sum_weights (contributions (kpi_data db) (kpi db))).
Proof.
  destruct (contributions (kpi_data db) (kpi db)) as [|pw c] eqn:E.
  - left. split; [reflexivity|]. now apply weighted_score_none.
  - right. split; [discriminate|]. rewrite <- E.
    apply weighted_score_some. rewrite E. discriminate.
Qed.

(** X8. [weighted_score] always returns and leaves the database as it is;
    its score is absent exactly when no KPI qualifies. *)
Theorem weighted_score_returns (db : Db) :
  exists answer,
    weighted_score db = (Ok answer, db)
    /\ (r_weighted_score answer = None
        <-> forall k, In k (kpi db) -> qualifies (kpi_data db) k = false).
Proof.
  destruct (weighted_score_answer db) as [[Hc E]|[Hc [score [E _]]]].
  - exists not_available. split; [exact E|]. split; [|reflexivity].
    intros _. now apply contributions_nil_iff.
  - eexists. split; [exact E|]. simpl. split; [discriminate|].
    intros H. apply contributions_nil_iff in H. contradiction.
Qed.









End WeightedScoreMore.




(** * Further properties of the handlers *)

Section HandlersMore.

Context {B : Bson}.

(** The two ways [save_kpi_data] ends: an error with the database as it
    was, or the record written under the identifier string. *)
Lemma save_kpi_data_cases (now : Z) (kpi_id : string) (payload : KpiData)
  (db : Db) :
  (exists e, save_kpi_data now kpi_id payload db = (Err e, db))
  \/ (exists doc actual percentage,
         In doc (kpi db)
         /\ ObjectId_parse kpi_id = Some (k_id doc)
         /\ find_kpi (k_id doc) (kpi db) = Some doc
         /\ compute_actual (p_values payload) (k_aggregation doc) = Ok actual
         /\ compute_percentage (k_category doc) actual
              (k_start_value doc) (k_target_value doc) = Ok percentage
         /\ in_0_100 percentage
         /\ save_kpi_data now kpi_id payload db
            = (Ok (snapshot_record now kpi_id (p_values payload)
                     actual percentage),
               {| kpi := kpi db;
                  kpi_data :=
                    upsert kpi_id
                      (snapshot_record now kpi_id (p_values payload)
                         actual percentage) (kpi_data db) |})).
Proof.
  destruct (ObjectId_parse kpi_id) as [o|] eqn:Hp.
  - destruct (find_kpi o (kpi db)) as [doc|] eqn:Hf.
    + right.
      pose proof Hf as Hf'. unfold find_kpi in Hf'. apply find_some in Hf'.
      destruct Hf' as [Hin He]. apply ObjectId_eqb_eq in He. subst o.
      destruct (compute_actual_returns (p_values payload)
                  (k_aggregation doc)) as [actual Ha].
      destruct (compute_percentage_returns (k_category doc) actual
                  (k_start_value doc) (k_target_value doc))
        as [percentage [Hpc Hr]].
      exists doc, actual, percentage.
      split; [exact Hin|]. split; [reflexivity|].
      do 4 (split; [assumption|]).
      exact (save_kpi_data_found now kpi_id payload (k_id doc) doc db
               actual percentage Hp Hf Ha Hpc).
    + left. eexists. now apply (save_kpi_data_unknown now kpi_id payload o).
  - left. eexists. now apply save_kpi_data_bad_id.
Qed.

Lemma upsert_length_present (kid : string) (record : Snapshot)
  (c : list Snapshot) :
  find_data kid c <> None ->
  List.length (upsert kid record c) = List.length c.
Proof.
  intros Hf.
  destruct (upsert_shape kid record c)
    as [[l1 [d [l2 [Hc [Hu _]]]]]|[Hnone _]]; [|contradiction].
  rewrite Hu, Hc, !length_app. reflexivity.
Qed.


(** X13. Last write wins: a second [save_kpi_data] for the same identifier
    succeeds, the lookup then gives the second record, with the values of
    the second payload, and the collection has not grown. *)
Theorem save_then_save (now1 now2 : Z) (kpi_id : string)
  (payload1 payload2 : KpiData) (db db1 : Db) (record1 : Snapshot) :
  save_kpi_data now1 kpi_id payload1 db = (Ok record1, db1) ->
  exists record2 db2,
    save_kpi_data now2 kpi_id payload2 db1 = (Ok record2, db2)
    /\ s_values record2 = p_values payload2
    /\ s_updated_at record2 = now2
    /\ find_data kpi_id (kpi_data db2) = Some record2
    /\ List.length (kpi_data db2) = List.length (kpi_data db1).
Proof.
  intros Hs.
  destruct (save_kpi_data_cases now1 kpi_id payload1 db)
    as [[e He]|[doc [a [p [Hin [Hp [Hf [_ [_ [_ E]]]]]]]]]].
  { rewrite He in Hs. discriminate. }
  rewrite E in Hs. injection Hs as <- <-.
  match goal with
  | |- exists _ _, save_kpi_data _ _ _ ?d = _ /\ _ =>
      assert (Hf1 : find_kpi (k_id doc) (kpi d) = Some doc) by exact Hf;
      destruct (save_kpi_data_cases now2 kpi_id payload2 d)
        as [[e He]|[doc2 [a2 [p2 [_ [Hp2 [Hf2 [_ [_ [_ E2]]]]]]]]]]
  end.
  - exfalso.
    destruct (compute_actual_returns (p_values payload2) (k_aggregation doc))
      as [a2 Ha2].
    destruct (compute_percentage_returns (k_category doc) a2
                (k_start_value doc) (k_target_value doc)) as [p2 [Hp2 _]].
    rewrite (save_kpi_data_found now2 kpi_id payload2 (k_id doc) doc _
               a2 p2 Hp Hf1 Ha2 Hp2) in He.
    discriminate.
  - eexists. eexists. split; [exact E2|].
    split; [reflexivity|]. split; [reflexivity|]. simpl kpi_data.
    split; [now apply find_data_upsert_same|].
    apply upsert_length_present.
    rewrite find_data_upsert_same by reflexivity. discriminate.
Qed.

(** The list [list_kpis] builds: one item per KPI, with the snapshot found
    under its printed identifier. *)
Lemma for_each_list_kpis_step (items : list KpiDoc) (acc : list KpiItem)
  (db : Db) :
  for_each items list_kpis_step acc db
  = (Ok (acc ++ map (fun it => kpi_item it (snapshot_of (kpi_data db) it))
                  items)%list, db).
Proof.
  revert acc. induction items as [|it items IH]; intros acc; simpl.
  - unfold ret. now rewrite app_nil_r.
  - unfold bind at 1. unfold list_kpis_step at 1.
    unfold bind, kpi_data_find_one, ret. rewrite IH.
    now rewrite <- app_assoc.
Qed.

Lemma list_kpis_eval (db : Db) :
  list_kpis db
  = (Ok (map (fun it => kpi_item it (snapshot_of (kpi_data db) it))
           (kpi db)), db).
Proof.
  unfold list_kpis, bind, kpi_find. now rewrite for_each_list_kpis_step.
Qed.

Lemma contributions_ext (data data' : list Snapshot) (kpis : list KpiDoc) :
  (forall k, In k kpis -> snapshot_of data' k = snapshot_of data k) ->
  contributions data' kpis = contributions data kpis.
Proof.
  induction kpis as [|k kpis IH]; intros H; simpl; [reflexivity|].
  assert (Hk : contribution data' k = contribution data k).
  { unfold contribution. now rewrite (H k (or_introl eq_refl)). }
  rewrite Hk, IH; [reflexivity|]. intros k' Hin. apply H. now right.
Qed.

(** X14. A snapshot is seen by [weighted_score] and [list_kpis] only under
    the printed form of an identifier: when [save_kpi_data] is called with a
    string that is not the printed identifier of any stored KPI, whether it
    fails or succeeds, both answers are what they were before. *)
Theorem save_under_other_spelling (now : Z) (kpi_id : string)
  (payload : KpiData) (db db' : Db) (r : result Snapshot) :
  save_kpi_data now kpi_id payload db = (r, db') ->
  (forall doc, In doc (kpi db) -> ObjectId_str (k_id doc) <> kpi_id) ->
  fst (weighted_score db') = fst (weighted_score db)
  /\ fst (list_kpis db') = fst (list_kpis db).
Proof.
  intros Hs Hno.
  destruct (save_kpi_data_cases now kpi_id payload db)
    as [[e He]|[doc [a [p [_ [_ [_ [_ [_ [_ E]]]]]]]]]].
  - rewrite He in Hs. injection Hs as _ <-. split; reflexivity.
  - rewrite E in Hs. injection Hs as _ <-.
    set (record := snapshot_record now kpi_id (p_values payload) a p).
    assert (Hsame : forall k, In k (kpi db) ->
              snapshot_of (upsert kpi_id record (kpi_data db)) k
              = snapshot_of (kpi_data db) k).
    { intros k Hin. unfold snapshot_of.
      apply find_data_upsert_other; [reflexivity | now apply Hno]. }
    split.
    + rewrite !weighted_score_eval. simpl kpi. simpl kpi_data.
      rewrite (contributions_ext _ _ _ Hsame). cbv zeta.
      destruct (Py.le _ 0); [reflexivity|].
      destruct (Py.div _ _); reflexivity.
    + rewrite !list_kpis_eval. simpl. f_equal.
      apply map_ext_in. intros k Hin. now rewrite Hsame.
Qed.

(** X15. [list_kpis] never changes the database and returns one item per
    stored KPI, in order; the item carries the printed identifier and the
    fields of the KPI, and its four data entries are those of the snapshot
    stored under the printed identifier, all absent when there is none. *)
Theorem list_kpis_spec (db : Db) :
  exists items,
    list_kpis db = (Ok items, db)
    /\ List.length items = List.length (kpi db)
    /\ map i_id items = map (fun k => ObjectId_str (k_id k)) (kpi db)
    /\ forall n k,
         nth_error (kpi db) n = Some k ->
         exists item,
           nth_error items n = Some item
           /\ item = kpi_item k (snapshot_of (kpi_data db) k)
           /\ (snapshot_of (kpi_data db) k = None ->
               i_data item
               = {| d_values := None; d_actual := None;
                    d_percentage := None; d_updated_at := None |})
           /\ (forall d, snapshot_of (kpi_data db) k = Some d ->
               d_values (i_data item) = Some (s_values d)
               /\ d_actual (i_data item) = Some (s_actual d)
               /\ d_percentage (i_data item) = s_percentage d).
Proof.
  eexists. split; [apply list_kpis_eval|].
  split; [now rewrite length_map|].
  split; [now rewrite map_map|].
  intros n k Hn. eexists. split.
  - rewrite nth_error_map, Hn. reflexivity.
  - split; [reflexivity|]. split.
    + intros ->. reflexivity.
    + intros d ->. repeat split.
Qed.

End HandlersMore.


Lemma save_then_save_witness :
  exists record1 db1 record2 db2,
    save_kpi_data 7 id_a example_payload db_bare = (Ok record1, db1)
    /\ save_kpi_data 8 id_a example_payload db1 = (Ok record2, db2)
    /\ find_data id_a (kpi_data db2) = Some record2
    /\ List.length (kpi_data db2) = List.length (kpi_data db1).
Proof.
  destruct (save_kpi_data 7 id_a example_payload db_bare) as [r db1] eqn:E.
  assert (Hr : exists record, r = Ok record).
  { vm_compute in E. injection E as <- _. eexists. reflexivity. }
  destruct Hr as [record1 ->].
  destruct (save_then_save 7 8 id_a example_payload example_payload
              db_bare db1 record1 E)
    as [record2 [db2 [E2 [_ [_ [Hf Hl]]]]]].
  exists record1, db1, record2, db2. auto.
Defined.

Lemma save_under_other_spelling_witness :
  (exists record db',
      save_kpi_data 7 id_a_upper example_payload db_bare = (Ok record, db')
      /\ fst (weighted_score db') = fst (weighted_score db_bare)
      /\ fst (list_kpis db') = fst (list_kpis db_bare))
  /\ fst (weighted_score db_bare) = Ok not_available.
Proof.
  split; [|reflexivity].
  destruct (save_kpi_data 7 id_a_upper example_payload db_bare)
    as [r db'] eqn:E.
  assert (Hr : exists record, r = Ok record).
  { vm_compute in E. injection E as <- _. eexists. reflexivity. }
  destruct Hr as [record ->].
  exists record, db'. split; [reflexivity|].
  apply (save_under_other_spelling 7 id_a_upper example_payload
           db_bare db' (Ok record) E).
  intros doc [<-|[]]. discriminate.
Defined.

(** ** [update_kpi] and [create_kpi] *)

Section RegistryFacts.

Context {B : Bson}.

Lemma find_kpi_app (o : ObjectId) (l1 l2 : list KpiDoc) :
  find_kpi o (l1 ++ l2)
  = match find_kpi o l1 with
    | Some d => Some d
    | None => find_kpi o l2
    end.
Proof.
  unfold find_kpi. induction l1 as [|d l1 IH]; simpl; [reflexivity|].
  destruct (ObjectId_eqb (k_id d) o); [reflexivity | exact IH].
Qed.

Lemma ObjectId_eqb_refl (o : ObjectId) : ObjectId_eqb o o = true.
Proof. now apply ObjectId_eqb_eq. Qed.

Lemma ObjectId_eqb_neq (a b : ObjectId) :
  ObjectId_eqb a b = false <-> a <> b.
Proof.
  split.
  - intros H He. apply ObjectId_eqb_eq in He. congruence.
  - intros H. destruct (ObjectId_eqb a b) eqn:E; [|reflexivity].
    apply ObjectId_eqb_eq in E. contradiction.
Qed.

(** What [update_one] does to [kpi]: nothing when no document has the
    identifier, else the first such document is rewritten in place. *)
Lemma update_first_kpi_shape (o : ObjectId) (f : KpiDoc -> KpiDoc)
  (c : list KpiDoc) :
  (find_kpi o c = None /\ update_first_kpi o f c = None)
  \/ (exists l1 d l2,
         c = (l1 ++ d :: l2)%list
         /\ update_first_kpi o f c = Some (l1 ++ f d :: l2)%list
         /\ find_kpi o c = Some d
         /\ k_id d = o
         /\ find_kpi o l1 = None).
Proof.
  unfold find_kpi. induction c as [|d c IH]; simpl.
  - now left.
  - destruct (ObjectId_eqb (k_id d) o) eqn:E.
    + right. exists [], d, c. apply ObjectId_eqb_eq in E.
      repeat split; auto.
    + destruct IH as [[Hn Hu]|[l1 [d' [l2 [Hc [Hu [Hf [Hid Hl]]]]]]]].
      * left. rewrite Hu. auto.
      * right. exists (d :: l1), d', l2. rewrite Hu, Hc. simpl.
        rewrite E. subst c. repeat split; auto.
Qed.

(** The three ways [update_kpi] ends. *)
Lemma update_kpi_cases (now : Z) (kpi_id : string) (body : Kpi) (db : Db) :
  (ObjectId_parse kpi_id = None
   /\ update_kpi now kpi_id body db
      = (Err (HTTPException 400 "Invalid id format"), db))
  \/ (exists o,
         ObjectId_parse kpi_id = Some o
         /\ find_kpi o (kpi db) = None
         /\ update_kpi now kpi_id body db
            = (Err (HTTPException 404 "KPI not found"), db))
  \/ (exists o l1 d l2,
         ObjectId_parse kpi_id = Some o
         /\ kpi db = (l1 ++ d :: l2)%list
         /\ find_kpi o (kpi db) = Some d
         /\ k_id d = o
         /\ find_kpi o l1 = None
         /\ update_kpi now kpi_id body db
            = (Ok {| u_id := kpi_id; u_kpi := body |},
               {| kpi := (l1 ++ set_kpi body now d :: l2)%list;
                  kpi_data := kpi_data db |})).
Proof.
  unfold update_kpi, bind, lift, oid, kpi_update_one.
  destruct (ObjectId_parse kpi_id) as [o|] eqn:Hp; [|now left].
  right.
  destruct (update_first_kpi_shape o (set_kpi body now) (kpi db))
    as [[Hn Hu]|[l1 [d [l2 [Hc [Hu [Hf [Hid Hl]]]]]]]]; rewrite Hu.
  - left. exists o. auto.
  - right. exists o, l1, d, l2. simpl. auto 10.
Qed.

(** X16. [update_kpi] fails with status 400 on an identifier that cannot be
    parsed and with status 404 on one that no stored KPI has, and leaves
    the database as it was in both cases. *)
Theorem update_kpi_errors (now : Z) (kpi_id : string) (body : Kpi)
  (db : Db) :
  (ObjectId_parse kpi_id = None ->
   update_kpi now kpi_id body db
   = (Err (HTTPException 400 "Invalid id format"), db))
  /\ (forall o,
         ObjectId_parse kpi_id = Some o ->
         (forall doc, In doc (kpi db) -> k_id doc <> o) ->
         update_kpi now kpi_id body db
         = (Err (HTTPException 404 "KPI not found"), db)).
Proof.
  destruct (update_kpi_cases now kpi_id body db)
    as [[Hp E]|[[o [Hp [Hf E]]]|[o [l1 [d [l2 [Hp [_ [Hf [_ [_ E]]]]]]]]]]].
  - split; [intros _; exact E|]. intros o Ho. congruence.
  - split; [congruence|]. intros o' Ho' _. exact E.
  - split; [congruence|]. intros o' Ho' Hno. exfalso.
    assert (o' = o) by congruence. subst o'.
    pose proof (proj2 (find_kpi_None o (kpi db)) Hno). congruence.
Qed.

(** X17. On a stored KPI [update_kpi] succeeds and rewrites that document
    only: it keeps its identifier and creation time, takes the eight fields
    of the body and the new update time; every other KPI, the order of the
    collection and all snapshots are untouched. *)
Theorem update_kpi_effect (now : Z) (kpi_id : string) (body : Kpi)
  (db : Db) (doc : KpiDoc) :
  In doc (kpi db) ->
  NoDup (map k_id (kpi db)) ->
  ObjectId_parse kpi_id = Some (k_id doc) ->
  exists db',
    update_kpi now kpi_id body db
    = (Ok {| u_id := kpi_id; u_kpi := body |}, db')
    /\ find_kpi (k_id doc) (kpi db')
       = Some (kpi_document (k_id doc) body (k_created_at doc) now)
    /\ (forall o, o <> k_id doc ->
          find_kpi o (kpi db') = find_kpi o (kpi db))
    /\ map k_id (kpi db') = map k_id (kpi db)
    /\ kpi_data db' = kpi_data db.
Proof.
  intros Hin Hnd Hp.
  pose proof (find_kpi_stored (kpi db) doc Hnd Hin) as Hst.
  destruct (update_kpi_cases now kpi_id body db)
    as [[Hp' E]|[[o [Hp' [Hf E]]]|[o [l1 [d [l2 [Hp' [Hc [Hf [Hid [Hl E]]]]]]]]]]].
  - congruence.
  - assert (o = k_id doc) by congruence. subst o. congruence.
  - assert (o = k_id doc) by congruence. subst o.
    assert (d = doc) by congruence. subst d.
    eexists. split; [exact E|]. simpl kpi. simpl kpi_data.
    split; [|split; [|split; [|reflexivity]]].
    + rewrite find_kpi_app, Hl. unfold find_kpi. simpl.
      now rewrite ObjectId_eqb_refl.
    + intros o Ho. rewrite Hc, !find_kpi_app.
      destruct (find_kpi o l1); [reflexivity|].
      unfold find_kpi. simpl.
      now rewrite (proj2 (ObjectId_eqb_neq (k_id doc) o))
        by congruence.
    + rewrite Hc, !map_app. reflexivity.
Qed.

(** X18. After [update_kpi], [get_kpi] answers the new fields together with
    the snapshot that was stored before: the percentage is not recomputed
    when the KPI changes. *)
Theorem update_then_get (now : Z) (kpi_id : string) (body : Kpi)
  (db db' : Db) (r : KpiUpdated) :
  update_kpi now kpi_id body db = (Ok r, db') ->
  exists doc,
    In doc (kpi db)
    /\ get_kpi kpi_id db
       = (Ok (kpi_view kpi_id doc (find_data kpi_id (kpi_data db))), db)
    /\ get_kpi kpi_id db'
       = (Ok (kpi_view kpi_id
                (kpi_document (k_id doc) body (k_created_at doc) now)
                (find_data kpi_id (kpi_data db))), db').
Proof.
  intros Hu.
  destruct (update_kpi_cases now kpi_id body db)
    as [[Hp' E]|[[o [Hp' [Hf E]]]|[o [l1 [d [l2 [Hp' [Hc [Hf [Hid [Hl E]]]]]]]]]]];
    rewrite E in Hu; try discriminate.
  injection Hu as _ <-. exists d. split.
  { rewrite Hc. apply in_or_app. right. now left. }
  split.
  - now apply (get_kpi_found kpi_id o).
  - rewrite (get_kpi_found kpi_id o (set_kpi body now d)); [|exact Hp'|].
    + unfold set_kpi. reflexivity.
    + simpl kpi. rewrite find_kpi_app, Hl. unfold find_kpi. cbn [find].
      change (k_id (set_kpi body now d)) with (k_id d).
      rewrite Hid, ObjectId_eqb_refl. reflexivity.
Qed.

Lemma kpi_insert_one_cases (doc : KpiDoc) (db : Db) :
  (In (k_id doc) (map k_id (kpi db)) /\ kpi_insert_one doc db = None)
  \/ (~ In (k_id doc) (map k_id (kpi db))
      /\ kpi_insert_one doc db
         = Some {| kpi := (kpi db ++ [doc])%list; kpi_data := kpi_data db |}).
Proof.
  unfold kpi_insert_one.
  destruct (existsb _ (kpi db)) eqn:E.
  - left. split; [|reflexivity]. apply existsb_exists in E.
    destruct E as [d [Hin He]]. apply ObjectId_eqb_eq in He.
    rewrite <- He. now apply in_map.
  - right. split; [|reflexivity]. intros Hin. apply in_map_iff in Hin.
    destruct Hin as [d [He Hin]].
    assert (existsb (fun d => ObjectId_eqb (k_id d) (k_id doc)) (kpi db)
            = true) as F; [|congruence].
    apply existsb_exists. exists d. split; [exact Hin|].
    now apply ObjectId_eqb_eq.
Qed.

(** The two ways [create_kpi] ends. *)
Lemma create_kpi_cases (created updated : Z) (inserted_id : ObjectId)
  (body : Kpi) (db : Db) :
  (In inserted_id (map k_id (kpi db))
   /\ create_kpi created updated inserted_id body db = None)
  \/ (~ In inserted_id (map k_id (kpi db))
      /\ create_kpi created updated inserted_id body db
         = Some ({| c_id := ObjectId_str inserted_id;
                    c_doc :=
                      kpi_document inserted_id body created updated |},
                 {| kpi :=
                      (kpi db
                       ++ [kpi_document inserted_id body created updated])%list;
                    kpi_data := kpi_data db |})).
Proof.
  unfold create_kpi.
  destruct (kpi_insert_one_cases
              (kpi_document inserted_id body created updated) db)
    as [[Hin E]|[Hnin E]]; simpl k_id in *; rewrite E; [left | right];
    split; auto.
Qed.

(** X19. [create_kpi] is refused exactly when the generated identifier is
    already stored; otherwise it appends one document, the dump of the body
    with the two timestamps, returns its printed identifier, and leaves
    every existing KPI and every snapshot as they were. *)
Theorem create_kpi_effect (created updated : Z) (inserted_id : ObjectId)
  (body : Kpi) (db : Db) :
  (In inserted_id (map k_id (kpi db)) ->
   create_kpi created updated inserted_id body db = None)
  /\ (~ In inserted_id (map k_id (kpi db)) ->
      exists db',
        create_kpi created updated inserted_id body db
        = Some ({| c_id := ObjectId_str inserted_id;
                   c_doc := kpi_document inserted_id body created updated |},
                db')
        /\ kpi db'
           = (kpi db
              ++ [kpi_document inserted_id body created updated])%list
        /\ kpi_data db' = kpi_data db
        /\ find_kpi inserted_id (kpi db')
           = Some (kpi_document inserted_id body created updated)
        /\ (forall o, o <> inserted_id ->
              find_kpi o (kpi db') = find_kpi o (kpi db))).
Proof.
  destruct (create_kpi_cases created updated inserted_id body db)
    as [[Hin E]|[Hnin E]]; rewrite E.
  - split; [reflexivity | contradiction].
  - split; [contradiction|]. intros _. eexists.
    split; [reflexivity|]. simpl. split; [reflexivity|].
    split; [reflexivity|]. split.
    + rewrite find_kpi_app.
      assert (Hn : find_kpi inserted_id (kpi db) = None).
      { apply find_kpi_None. intros doc Hd He. apply Hnin.
        rewrite <- He. now apply in_map. }
      rewrite Hn. unfold find_kpi. simpl.
      now rewrite ObjectId_eqb_refl.
    + intros o Ho. rewrite find_kpi_app.
      destruct (find_kpi o (kpi db)); [reflexivity|].
      unfold find_kpi. simpl.
      now rewrite (proj2 (ObjectId_eqb_neq inserted_id o)) by congruence.
Qed.

(** X20. Round trip: when the printed identifier parses back to the
    identifier, [get_kpi] on the identifier [create_kpi] returned answers
    the fields of the body, with the snapshot stored under that string (none
    in a database whose snapshots all belong to stored KPIs). *)
Theorem create_then_get (created updated : Z) (inserted_id : ObjectId)
  (body : Kpi) (db db' : Db) (r : KpiCreated) :
  ObjectId_parse (ObjectId_str inserted_id) = Some inserted_id ->
  create_kpi created updated inserted_id body db = Some (r, db') ->
  get_kpi (c_id r) db'
  = (Ok (kpi_view (c_id r)
           (kpi_document inserted_id body created updated)
           (find_data (c_id r) (kpi_data db))), db')
  /\ (Forall (Snapshot_referenced (kpi db)) (kpi_data db) ->
      find_data (c_id r) (kpi_data db) = None).
Proof.
  intros Hlaw Hc.
  destruct (create_kpi_cases created updated inserted_id body db)
    as [[Hin E]|[Hnin E]]; rewrite E in Hc; [discriminate|].
  injection Hc as <- <-. simpl c_id. split.
  - rewrite (get_kpi_found _ inserted_id
               (kpi_document inserted_id body created updated));
      [reflexivity | exact Hlaw |].
    simpl kpi. rewrite find_kpi_app.
    assert (Hn : find_kpi inserted_id (kpi db) = None).
    { apply find_kpi_None. intros doc Hd He. apply Hnin.
      rewrite <- He. now apply in_map. }
    rewrite Hn. unfold find_kpi. simpl. now rewrite ObjectId_eqb_refl.
  - intros Href.
    destruct (find_data (ObjectId_str inserted_id) (kpi_data db))
      as [d|] eqn:Ef; [|reflexivity].
    exfalso. unfold find_data in Ef. apply find_some in Ef.
    destruct Ef as [Hind Hkey]. apply String.eqb_eq in Hkey.
    rewrite Forall_forall in Href.
    destruct (Href d Hind) as [o [Hparse Ho]].
    rewrite Hkey, Hlaw in Hparse. injection Hparse as <-.
    exact (Hnin Ho).
Qed.

End RegistryFacts.

Lemma update_kpi_errors_witness :
  update_kpi 9 "not-an-id" example_body db_two
  = (Err (HTTPException 400 "Invalid id format"), db_two)
  /\ update_kpi 9 id_c example_body db_two
     = (Err (HTTPException 404 "KPI not found"), db_two).
Proof.
  split.
  - apply (proj1 (update_kpi_errors 9 "not-an-id" example_body db_two)).
    reflexivity.
  - apply (proj2 (update_kpi_errors 9 id_c example_body db_two) id_c).
    + reflexivity.
    + intros doc [<-|[<-|[]]]; discriminate.
Defined.

Lemma update_kpi_effect_witness :
  exists db',
    update_kpi 9 id_a example_body db_two
    = (Ok {| u_id := id_a; u_kpi := example_body |}, db')
    /\ find_kpi id_a (kpi db')
       = Some (kpi_document (B := HexId) id_a example_body 0 9)
    /\ kpi_data db' = kpi_data db_two.
Proof.
  destruct (update_kpi_effect 9 id_a example_body db_two
              (example_kpi id_a "Increase" 20 0 100 "Sum"))
    as [db' [E [Hf [_ [_ Hd]]]]].
  - left. reflexivity.
  - repeat constructor; simpl; intuition discriminate.
  - reflexivity.
  - exists db'. auto.
Defined.

Lemma update_then_get_witness :
  exists db' doc,
    get_kpi id_a db'
    = (Ok (kpi_view id_a (kpi_document (k_id doc) example_body
                            (k_created_at doc) 9)
             (Some (example_snapshot id_a 50))), db').
Proof.
  destruct (update_kpi 9 id_a example_body db_two) as [r db'] eqn:E.
  assert (Hr : exists u, r = Ok u).
  { vm_compute in E. injection E as <- _. eexists. reflexivity. }
  destruct Hr as [u ->].
  destruct (update_then_get 9 id_a example_body db_two db' u E)
    as [doc [_ [_ Hg]]].
  exists db', doc. exact Hg.
Defined.

Lemma create_kpi_effect_witness :
  create_kpi (B := HexId) 1 2 id_a example_body db_two = None
  /\ exists db',
       create_kpi (B := HexId) 1 2 id_c example_body db_two
       = Some ({| c_id := id_c;
                  c_doc := kpi_document (B := HexId) id_c example_body 1 2 |}, db')
       /\ find_kpi id_c (kpi db') = Some (kpi_document (B := HexId) id_c example_body 1 2).
Proof.
  split.
  - apply (proj1 (create_kpi_effect (B := HexId) 1 2 id_a example_body db_two)).
    left. reflexivity.
  - destruct (proj2 (create_kpi_effect (B := HexId) 1 2 id_c example_body db_two))
      as [db' [E [_ [_ [Hf _]]]]].
    + simpl. intuition discriminate.
    + exists db'. auto.
Defined.

Lemma create_then_get_witness :
  exists r db',
    create_kpi (B := HexId) 1 2 id_c example_body db_two = Some (r, db')
    /\ get_kpi (c_id r) db'
       = (Ok (kpi_view (c_id r) (kpi_document (B := HexId) id_c example_body 1 2)
                (find_data (c_id r) (kpi_data db_two))), db').
Proof.
  destruct (create_kpi (B := HexId) 1 2 id_c example_body db_two) as [[r db']|] eqn:E;
    [|discriminate E].
  exists r, db'. split; [reflexivity|].
  apply (proj1 (create_then_get (B := HexId) 1 2 id_c example_body db_two db' r
                  eq_refl E)).
Defined.

(** ** States the handlers can produce *)

Section Reachable.

Context {B : Bson}.

(** X21. [list_kpis] and [get_kpi] agree: for a stored KPI whose printed
    identifier parses back to its identifier, the answer of [get_kpi] on
    that string has the fields and the snapshot data of the item
    [list_kpis] returns for the KPI. *)
Theorem list_kpis_agrees_with_get_kpi (db : Db) (doc : KpiDoc) :
  In doc (kpi db) ->
  NoDup (map k_id (kpi db)) ->
  ObjectId_parse (ObjectId_str (k_id doc)) = Some (k_id doc) ->
  exists items view,
    list_kpis db = (Ok items, db)
    /\ get_kpi (ObjectId_str (k_id doc)) db = (Ok view, db)
    /\ view = kpi_view (ObjectId_str (k_id doc)) doc (v_data view)
    /\ In (kpi_item doc (v_data view)) items.
Proof.
  intros Hin Hnd Hp.
  eexists. eexists. split; [apply list_kpis_eval|].
  split.
  { apply (get_kpi_found _ (k_id doc) doc); [exact Hp|].
    now apply find_kpi_stored. }
  split; [reflexivity|]. simpl v_data.
  apply in_map_iff. exists doc. split; [reflexivity | exact Hin].
Qed.

Lemma Forall_upsert (P : Snapshot -> Prop) (kid : string)
  (record : Snapshot) (c : list Snapshot) :
  Forall P c -> P record -> Forall P (upsert kid record c).
Proof.
  intros Hc Hr.
  destruct (upsert_shape kid record c)
    as [[l1 [d [l2 [Ec [Eu _]]]]]|[_ Eu]]; rewrite Eu.
  - rewrite Ec in Hc. apply Forall_app in Hc. destruct Hc as [H1 H2].
    inversion H2; subst. apply Forall_app. split; [exact H1|].
    now constructor.
  - apply Forall_app. split; [exact Hc|]. now constructor.
Qed.

Lemma consistent_empty : consistent empty_db.
Proof.
  split; simpl; try constructor.
Qed.

Lemma consistent_create (created updated : Z) (inserted_id : ObjectId)
  (body : Kpi) (db db' : Db) (r : KpiCreated) :
  consistent db ->
  Kpi_valid body = true ->
  create_kpi created updated inserted_id body db = Some (r, db') ->
  consistent db'.
Proof.
  intros [Hi Hk Hd Hp Hr] Hv Hc.
  destruct (create_kpi_cases created updated inserted_id body db)
    as [[Hin E]|[Hnin E]]; rewrite E in Hc; [discriminate|].
  injection Hc as _ <-.
  split; simpl kpi; simpl kpi_data; try assumption.
  - rewrite map_app. simpl.
    apply NoDup_rev in Hi. rewrite <- (rev_involutive (_ ++ _)).
    apply NoDup_rev. rewrite rev_app_distr. simpl.
    constructor; [|exact Hi]. now rewrite <- in_rev.
  - apply Forall_app. split; [exact Hd|]. constructor; [|constructor].
    exists body. split; [exact Hv | reflexivity].
  - eapply Forall_impl; [|exact Hr].
    intros d [o [Ho Hino]]. exists o. split; [exact Ho|].
    rewrite map_app. apply in_or_app. now left.
Qed.

Lemma consistent_update (now : Z) (kpi_id : string) (body : Kpi)
  (db db' : Db) (r : result KpiUpdated) :
  consistent db ->
  Kpi_valid body = true ->
  update_kpi now kpi_id body db = (r, db') ->
  consistent db'.
Proof.
  intros Hc Hv Hu.
  destruct (update_kpi_cases now kpi_id body db)
    as [[Hp' E]|[[o [Hp' [Hf E]]]|[o [l1 [d [l2 [Hp' [Ec [Hf [Hid [Hl E]]]]]]]]]]];
    rewrite E in Hu; injection Hu as _ <-; try exact Hc.
  destruct Hc as [Hi Hk Hd Hp Hr].
  assert (Hids : map k_id (l1 ++ set_kpi body now d :: l2)%list
                 = map k_id (kpi db)).
  { rewrite Ec, !map_app. reflexivity. }
  split; simpl kpi; simpl kpi_data; try assumption.
  - now rewrite Hids.
  - rewrite Ec in Hd. apply Forall_app in Hd. destruct Hd as [H1 H2].
    inversion H2; subst. apply Forall_app. split; [exact H1|].
    constructor; [|assumption].
    exists body. split; [exact Hv | reflexivity].
  - eapply Forall_impl; [|exact Hr].
    intros s [o' [Ho' Hin']]. exists o'. split; [exact Ho'|].
    now rewrite Hids.
Qed.

Lemma consistent_save (now : Z) (kpi_id : string) (payload : KpiData)
  (db db' : Db) (r : result Snapshot) :
  consistent db ->
  save_kpi_data now kpi_id payload db = (r, db') ->
  consistent db'.
Proof.
  intros Hc Hs.
  destruct (save_kpi_data_cases now kpi_id payload db)
    as [[e He]|[doc [a [p [Hin [Hp [_ [_ [_ [Hr E]]]]]]]]]];
    [rewrite He in Hs | rewrite E in Hs]; injection Hs as _ <-;
    try exact Hc.
  destruct Hc as [Hi Hk Hd Hpr Hre].
  split; simpl kpi; simpl kpi_data; try assumption.
  - now apply unique_keys_upsert.
  - apply Forall_upsert; [exact Hpr|]. exists p. split; [reflexivity|].
    exact Hr.
  - apply Forall_upsert; [exact Hre|]. exists (k_id doc).
    split; [exact Hp | now apply in_map].
Qed.

Lemma consistent_step (db db' : Db) :
  consistent db -> api_step db db' -> consistent db'.
Proof.
  intros IH Hstep.
  destruct Hstep as [c u i body db db' r Hv Hc
                    |now kid body db db' r Hv Hu
                    |now kid payload db db' r Hs].
  - exact (consistent_create c u i body db db' r IH Hv Hc).
  - exact (consistent_update now kid body db db' r IH Hv Hu).
  - exact (consistent_save now kid payload db db' r IH Hs).
Qed.

Lemma reachable_is_consistent (db : Db) : reachable db -> consistent db.
Proof.
  induction 1 as [|db db' _ IH Hstep].
  - apply consistent_empty.
  - exact (consistent_step db db' IH Hstep).
Qed.

(** X22. Consistency is an invariant of the write handlers: it holds of the
    empty database, every write keeps it, and so it holds of every database
    they can produce.  A consistent database has unique KPI identifiers, at
    most one snapshot per key, only KPIs that are the dump of a body that
    passed the schema, only snapshots with a percentage within [0, 100],
    and only snapshot keys that parse to the identifier of a stored KPI. *)
Theorem reachable_consistent :
  consistent empty_db
  /\ (forall db db', consistent db -> api_step db db' -> consistent db')
  /\ (forall db, reachable db -> consistent db).
Proof.
  split; [apply consistent_empty|].
  split; [exact consistent_step | exact reachable_is_consistent].
Qed.



Lemma Kpi_valid_weightage (body : Kpi) :
  Kpi_valid body = true -> 0 < b_weightage body.
Proof.
  unfold Kpi_valid. rewrite !andb_true_iff.
  intros [[[_ H] _] _]. now apply Py_lt_iff.
Qed.

(** X24. On every database the write handlers can produce, a stored KPI
    counts toward the score exactly when a snapshot is stored under its
    printed identifier: its weightage is always positive and a stored
    snapshot always has a percentage. *)
Theorem reachable_qualifies_iff (db : Db) (k : KpiDoc) :
  reachable db ->
  In k (kpi db) ->
  (qualifies (kpi_data db) k = true
   <-> snapshot_of (kpi_data db) k <> None).
Proof.
  intros Hr Hin. apply reachable_is_consistent in Hr.
  destruct Hr as [_ _ Hd Hpr _].
  rewrite Forall_forall in Hd, Hpr.
  destruct (Hd k Hin) as [body [Hv Hk]].
  pose proof (Kpi_valid_weightage body Hv) as Hw.
  unfold qualifies, contribution.
  destruct (snapshot_of (kpi_data db) k) as [d|] eqn:Es.
  - assert (Hind : In d (kpi_data db)).
    { unfold snapshot_of, find_data in Es. apply find_some in Es. tauto. }
    destruct (Hpr d Hind) as [p [Hp _]]. rewrite Hp.
    assert (Hkw : k_weightage k = Some (b_weightage body))
      by (rewrite Hk; reflexivity).
    rewrite Hkw.
    destruct (Qlt_le_dec 0 (b_weightage body)) as [H|H]; [|lra].
    split; [discriminate | reflexivity].
  - split; [discriminate | congruence].
Qed.

End Reachable.

Lemma list_kpis_agrees_with_get_kpi_witness :
  exists items view,
    list_kpis db_two = (Ok items, db_two)
    /\ get_kpi id_a db_two = (Ok view, db_two)
    /\ In (kpi_item (example_kpi id_a "Increase" 20 0 100 "Sum")
             (v_data view)) items.
Proof.
  destruct (list_kpis_agrees_with_get_kpi db_two
              (example_kpi id_a "Increase" 20 0 100 "Sum"))
    as [items [view [El [Eg [_ Hi]]]]].
  - left. reflexivity.
  - repeat constructor; simpl; intuition discriminate.
  - reflexivity.
  - exists items, view. auto.
Defined.

(** A database reached by one creation and one submission of values. *)
Lemma reachable_example :
  exists db,
    reachable (B := HexId) db
    /\ List.length (kpi db) = 1%nat
    /\ List.length (kpi_data db) = 1%nat.
Proof.
  destruct (create_kpi (B := HexId) 1 1 id_a example_body empty_db)
    as [[r db1]|] eqn:E1; [|discriminate E1].
  destruct (save_kpi_data 5 id_a example_payload db1) as [r2 db2] eqn:E2.
  exists db2. split.
  - eapply reachable_step; [eapply reachable_step; [apply reachable_empty|]|].
    + eapply step_create; [|exact E1]. reflexivity.
    + eapply step_save. exact E2.
  - vm_compute in E1. injection E1 as _ <-.
    vm_compute in E2. injection E2 as _ <-. split; reflexivity.
Defined.

Lemma reachable_consistent_witness :
  exists db : Db,
    List.length (kpi_data db) = 1%nat /\ consistent db.
Proof.
  destruct reachable_example as [db [Hr [_ Hl]]].
  exists db. split; [exact Hl|].
  exact (proj2 (proj2 reachable_consistent) db Hr).
Defined.


Lemma reachable_qualifies_iff_witness :
  exists (db : Db) k,
    In k (kpi db)
    /\ (qualifies (kpi_data db) k = true
        <-> snapshot_of (kpi_data db) k <> None).
Proof.
  destruct reachable_example as [db [Hr [Hk _]]].
  destruct (kpi db) as [|k l] eqn:E; [discriminate Hk|].
  exists db, k.
  assert (Hin : In k (kpi db)) by (rewrite E; now left).
  split; [exact Hin|]. exact (reachable_qualifies_iff db k Hr Hin).
Defined.

Section SaveThenScore.

Context {B : Bson}.

(** X25. Submitting values under the printed identifier of a stored KPI
    with a positive weightage makes that KPI count: it contributes the
    percentage just computed with its weightage, and [weighted_score] then
    has a score. *)
Theorem save_then_weighted_score (now : Z) (payload : KpiData) (db : Db)
  (doc : KpiDoc) (w : Q) :
  In doc (kpi db) ->
  NoDup (map k_id (kpi db)) ->
  ObjectId_parse (ObjectId_str (k_id doc)) = Some (k_id doc) ->
  k_weightage doc = Some w ->
  0 < w ->
  exists record db' p score display,
    save_kpi_data now (ObjectId_str (k_id doc)) payload db = (Ok record, db')
    /\ s_percentage record = Some p
    /\ contribution (kpi_data db') doc = Some (p, w)
    /\ weighted_score db'
       = (Ok {| r_weighted_score := Some score; r_display := display |},
          db').
Proof.
  intros Hin Hnd Hp Hw Hpos.
  pose proof (find_kpi_stored (kpi db) doc Hnd Hin) as Hf.
  destruct (compute_actual_returns (p_values payload) (k_aggregation doc))
    as [a Ha].
  destruct (compute_percentage_returns (k_category doc) a
              (k_start_value doc) (k_target_value doc)) as [p [Hpc _]].
  pose proof (save_kpi_data_found now (ObjectId_str (k_id doc)) payload
                (k_id doc) doc db a p Hp Hf Ha Hpc) as E.
  cbv zeta in E.
  set (record := snapshot_record now (ObjectId_str (k_id doc))
                   (p_values payload) a p) in *.
  set (db' := {| kpi := kpi db;
                 kpi_data := upsert (ObjectId_str (k_id doc)) record
                               (kpi_data db) |}) in *.
  assert (Hc : contribution (kpi_data db') doc = Some (p, w)).
  { unfold contribution, snapshot_of. simpl kpi_data.
    rewrite find_data_upsert_same by reflexivity. simpl s_percentage.
    rewrite Hw. destruct (Qlt_le_dec 0 w) as [H|H]; [reflexivity | lra]. }
  destruct (weighted_score_answer db') as [[Hn _]|[_ [s [Es _]]]].
  - exfalso. rewrite contributions_nil_iff in Hn.
    specialize (Hn doc Hin). unfold qualifies in Hn.
    rewrite Hc in Hn. discriminate.
  - exists record, db', p, s, (format_2f s ++ "%").
    split; [exact E|]. split; [reflexivity|]. split; [exact Hc | exact Es].
Qed.

End SaveThenScore.

Lemma save_then_weighted_score_witness :
  exists record db' p score display,
    save_kpi_data 7 id_a example_payload db_bare = (Ok record, db')
    /\ s_percentage record = Some p
    /\ weighted_score db'
       = (Ok {| r_weighted_score := Some score; r_display := display |},
          db').
Proof.
  destruct (save_then_weighted_score 7 example_payload db_bare
              (example_kpi id_a "Increase" 20 0 100 "Average") 20)
    as [record [db' [p [score [display [E [Hp [_ Ew]]]]]]]].
  - left. reflexivity.
  - repeat constructor; simpl; intuition discriminate.
  - reflexivity.
  - reflexivity.
  - reflexivity.
  - exists record, db', p, score, display. auto.
Defined.
